(** * Trivia API: a shallow embedding of [backend/flaskr/__init__.py]

    The handlers of the Flask application are embedded as functions over
    an explicit store.  Python values that reach the handlers through
    [request.get_json()] are JSON values; exceptions and [abort] are an
    error monad; the persistence layer ([models.py], which is not part of
    the sources at hand) is modelled from the data model of the
    specification. *)

From Stdlib Require Import ZArith List String Ascii Bool Lia.
From stdpp Require Import base tactics option list gmap strings pretty sorting.

Local Open Scope Z_scope.
Local Open Scope string_scope.

(** ** JSON values, as [request.get_json()] hands them to Python

    Numbers are integers: floating point values are outside the model.
    An object keeps its keys in insertion order, as a Python [dict]
    does. *)

#[local] Set Warnings "-register-all".

Inductive json : Type :=
| JNull
| JBool (b : bool)
| JNum (n : Z)
| JStr (s : string)
| JArr (items : list json)
| JObj (fields : list (string * json)).

(** ** Exceptions and [abort]

    [abort(code)] raises an [HTTPException], which [except Exception]
    catches like every other exception. *)

Inductive exn : Type :=
| HTTPException (code : Z)
| TypeError
| KeyError
| ValueError
| AttributeError
| IndexError
| StorageError.

Inductive result (A : Type) : Type :=
| Ok (a : A)
| Raise (e : exn).
Arguments Ok {A} a.
Arguments Raise {A} e.

#[global] Instance result_ret : MRet result := fun A a => Ok a.
#[global] Instance result_bind : MBind result := fun A B k m =>
  match m with
  | Ok a => k a
  | Raise e => Raise e
  end.

Definition abort {A : Type} (code : Z) : result A := Raise (HTTPException code).

(** [try: body except Exception: handler]. *)
Definition try_except {A : Type} (body : result A) (handler : result A) : result A :=
  match body with
  | Ok a => Ok a
  | Raise _ => handler
  end.

(** ** Python builtins used by the handlers *)

Module Py.

(** [value == n] for an integer [n]: an integer compares equal to the
    same integer and, as [bool] is a subclass of [int], to [True] (1)
    and [False] (0); to nothing else. *)
Definition eq_int (v : json) (n : Z) : bool :=
  match v with
  | JNum m => Z.eqb m n
  | JBool b => Z.eqb (if b then 1 else 0) n
  | _ => false
  end.

(** [value == ''] : only the empty string is equal to it. *)
Definition eq_empty_str (v : json) : bool :=
  match v with
  | JStr s => if decide (s = "") then true else false
  | _ => false
  end.

(** [n in container] for an integer [n]. A list is searched with [==];
    a dict is searched among its keys, which are strings; a string on
    the right wants a string on the left; the other values are not
    iterable. *)
Definition contains_int (container : json) (n : Z) : result bool :=
  match container with
  | JArr items => Ok (existsb (fun v => eq_int v n) items)
  | JObj _ => Ok false
  | JNull | JBool _ | JNum _ | JStr _ => Raise TypeError
  end.

(** The value under a string key in the fields of an object: a [dict]
    has every key once, so the first field of that key is the only
    one. *)
Fixpoint assoc (key : string) (fields : list (string * json)) : option json :=
  match fields with
  | [] => None
  | (k, v) :: rest => if decide (k = key) then Some v else assoc key rest
  end.

(** [data !! key]: the value that a dict holds under the key. A dict
    without the key holds none, and so does a value that is not a
    dict. *)
#[global] Instance json_lookup : Lookup string json json := fun key v =>
  match v with
  | JObj fields => assoc key fields
  | _ => None
  end.

(** A dict, the Python value of a JSON object. *)
Definition is_dict (v : json) : Prop :=
  match v with
  | JObj _ => True
  | _ => False
  end.

(** What [d.get(key)] and [d.get(key, default)] return on a dict [d]. A
    key that is absent gives the default ([None] when there is none); a
    key that is present gives its value, also when that value is
    [null]. *)
Definition dict_get (d : json) (key : string) (default : json) : json :=
  match d !! key with
  | Some v => v
  | None => default
  end.

(** The call [data.get(key, default)] on the value of
    [request.get_json()]. A dict answers it; a list, a string, a number,
    a boolean and [None] (the value of the body [null], and of a request
    without a JSON body) have no attribute [get]. *)
Definition get (data : json) (key : string) (default : json) : result json :=
  match data with
  | JObj _ => Ok (dict_get data key default)
  | _ => Raise AttributeError
  end.

(** [value[key]] for a string key. *)
Definition getitem (v : json) (key : string) : result json :=
  match v with
  | JObj fields =>
      match assoc key fields with
      | Some x => Ok x
      | None => Raise KeyError
      end
  | _ => Raise TypeError
  end.

(** [l[start:stop]] with integer bounds: a negative bound counts from
    the end, and both bounds are clamped to the list. *)
Definition slice_index (len i : Z) : Z :=
  if Z.ltb i 0 then Z.max 0 (i + len) else Z.min i len.

Definition slice {A : Type} (l : list A) (start stop : Z) : list A :=
  let len := Z.of_nat (length l) in
  let lo := slice_index len start in
  let hi := slice_index len stop in
  take (Z.to_nat (hi - lo)) (drop (Z.to_nat lo) l).

(** [l[i]] for an index that is not negative. *)
Definition index {A : Type} (l : list A) (i : Z) : result A :=
  match l !! Z.to_nat i with
  | Some x => Ok x
  | None => Raise IndexError
  end.

(** *** Strings

    A Python string is held as its UTF-8 encoding, so that an ASCII
    character is its own byte. [code_points] reads the characters of a
    string back; bytes that encode no string have none. *)
Definition continuation (b : N) : bool := ((128 <=? b) && (b <=? 191))%N.

Fixpoint code_points (bytes : list N) : option (list N) :=
  match bytes with
  | [] => Some []
  | b0 :: rest =>
      if (b0 <? 128)%N then cons b0 <$> code_points rest
      else if ((194 <=? b0) && (b0 <=? 223))%N then
        match rest with
        | b1 :: rest' =>
            if continuation b1
            then cons ((b0 - 192) * 64 + (b1 - 128))%N <$> code_points rest'
            else None
        | _ => None
        end
      else if ((224 <=? b0) && (b0 <=? 239))%N then
        match rest with
        | b1 :: b2 :: rest' =>
            let cp := ((b0 - 224) * 4096 + (b1 - 128) * 64 + (b2 - 128))%N in
            if continuation b1 && continuation b2
               && (2048 <=? cp)%N && negb ((55296 <=? cp) && (cp <=? 57343))%N
            then cons cp <$> code_points rest'
            else None
        | _ => None
        end
      else if ((240 <=? b0) && (b0 <=? 244))%N then
        match rest with
        | b1 :: b2 :: b3 :: rest' =>
            let cp := ((b0 - 240) * 262144 + (b1 - 128) * 4096
                       + (b2 - 128) * 64 + (b3 - 128))%N in
            if continuation b1 && continuation b2 && continuation b3
               && (65536 <=? cp)%N && (cp <=? 1114111)%N
            then cons cp <$> code_points rest'
            else None
        | _ => None
        end
      else None
  end.

(** The white space that Unicode has beyond ASCII, and its decimal
    digits: each entry of [decimal_zeros] is the digit zero of a script,
    which the digits one to nine of the script follow (Unicode 14.0, the
    tables of CPython 3.11). *)
Definition unicode_spaces : list N :=
  [133; 160; 5760; 8192; 8193; 8194; 8195; 8196; 8197; 8198; 8199; 8200;
   8201; 8202; 8232; 8233; 8239; 8287; 12288]%N.

Definition decimal_zeros : list N :=
  [1632; 1776; 1984; 2406; 2534; 2662; 2790; 2918; 3046; 3174; 3302; 3430;
   3558; 3664; 3792; 3872; 4160; 4240; 6112; 6160; 6470; 6608; 6784; 6800;
   6992; 7088; 7232; 7248; 42528; 43216; 43264; 43472; 43504; 43600; 44016;
   65296; 66720; 68912; 69734; 69872; 69942; 70096; 70384; 70736; 70864;
   71248; 71360; 71472; 71904; 72016; 72784; 73040; 73120; 92768; 92864;
   93008; 120782; 120792; 120802; 120812; 120822; 123200; 123632; 125264;
   130032]%N.

Definition unicode_decimal (cp : N) : option N :=
  (fun zero => cp - zero)%N
    <$> List.find (fun zero => (zero <=? cp) && (cp <? zero + 10))%N decimal_zeros.

(** *** [int(s)] for a string, in base ten

    A string with a character beyond ASCII is first brought to ASCII:
    the white space of Unicode becomes a space, a decimal digit of any
    script the ASCII digit of its value, and any other character makes
    the string no numeral. Then surrounding white space is skipped
    (the tab, the line feed, the vertical tab, the form feed, the
    carriage return and the space), one sign is allowed, and the
    digits may be grouped by single underscores; a numeral of more than
    [int_max_str_digits] digits is refused. What is no numeral is a
    [ValueError], and [int] raises nothing else on a string. *)
Definition ascii_of_code_point (cp : N) : option ascii :=
  if (cp <? 127)%N then Some (ascii_of_N cp)
  else if existsb (N.eqb cp) unicode_spaces then Some " "%char
  else (fun d => ascii_of_N (48 + d)) <$> unicode_decimal cp.

Definition is_space (c : ascii) : bool :=
  let n := N_of_ascii c in
  ((9 <=? n) && (n <=? 13) || (n =? 32))%N.

Definition digit_value (c : ascii) : option Z :=
  let n := N_of_ascii c in
  if ((48 <=? n) && (n <=? 57))%N then Some (Z.of_N n - 48) else None.

Fixpoint lstrip (s : list ascii) : list ascii :=
  match s with
  | c :: s' => if is_space c then lstrip s' else s
  | [] => []
  end.

Definition strip (s : list ascii) : list ascii :=
  rev (lstrip (rev (lstrip s))).

Fixpoint digits (acc : Z) (after_digit : bool) (s : list ascii) : option Z :=
  match s with
  | [] => if after_digit then Some acc else None
  | c :: s' =>
      if Ascii.eqb c "_" then
        if after_digit then digits acc false s' else None
      else
        match digit_value c with
        | Some d => digits (10 * acc + d) true s'
        | None => None
        end
  end.

Definition numeral (s : list ascii) : option Z :=
  match s with
  | c :: rest =>
      if Ascii.eqb c "-" then Z.opp <$> digits 0 false rest
      else if Ascii.eqb c "+" then digits 0 false rest
      else digits 0 false (c :: rest)
  | [] => None
  end.

(** [sys.int_info.default_max_str_digits] *)
Definition int_max_str_digits : nat := 4300.

Definition count_digits (s : list ascii) : nat :=
  length (List.filter (fun c => bool_decide (is_Some (digit_value c))) s).

Definition int (s : string) : result Z :=
  let read :=
    characters ← code_points (N_of_ascii <$> list_ascii_of_string s);
    brought ← mapM ascii_of_code_point characters;
    let stripped := strip brought in
    n ← numeral stripped;
    if Nat.ltb int_max_str_digits (count_digits stripped) then None else Some n in
  match read with
  | Some n => Ok n
  | None => Raise ValueError
  end.

(** *** [random.randint(a, b)]

    The generator is a stream of natural numbers, [rng k] for the [k]th
    call; the call reduces it into the range. Every sequence of draws
    within range is the image of some stream. An empty range is a
    [ValueError]. *)
Definition randint (rng : nat -> nat) (k : nat) (a b : Z) : result Z :=
  if Z.ltb b a then Raise ValueError
  else Ok (a + Z.of_nat (rng k) mod (b - a + 1)).

(** *** [str(value)] *)
Definition hex_digit (n : N) : ascii :=
  match String.get (N.to_nat n) "0123456789abcdef" with
  | Some c => c
  | None => "0"%char
  end.

Definition repr_char (quote : ascii) (c : ascii) : list ascii :=
  let n := N_of_ascii c in
  if Ascii.eqb c quote || Ascii.eqb c "\" then ["\"; c]%char
  else if (n =? 9)%N then ["\"; "t"]%char
  else if (n =? 10)%N then ["\"; "n"]%char
  else if (n =? 13)%N then ["\"; "r"]%char
  else if ((n <? 32) || (n =? 127))%N then
    ["\"; "x"; hex_digit (n / 16); hex_digit (n mod 16)]%char
  else [c].

Definition double_quote : ascii := ascii_of_N 34.

Definition repr_str (s : string) : string :=
  let cs := list_ascii_of_string s in
  let has c := existsb (Ascii.eqb c) cs in
  let quote := if has "'"%char && negb (has double_quote) then double_quote else "'"%char in
  string_of_list_ascii (quote :: flat_map (repr_char quote) cs ++ [quote]).

Fixpoint join (sep : string) (parts : list string) : string :=
  match parts with
  | [] => ""
  | [x] => x
  | x :: rest => x ++ sep ++ join sep rest
  end.

Fixpoint repr (v : json) : string :=
  match v with
  | JNull => "None"
  | JBool true => "True"
  | JBool false => "False"
  | JNum n => pretty n
  | JStr s => repr_str s
  | JArr items => "[" ++ join ", " (map repr items) ++ "]"
  | JObj fields =>
      "{" ++ join ", " (map (fun kv => repr_str (fst kv) ++ ": " ++ repr (snd kv)) fields) ++ "}"
  end.

Definition str (v : json) : string :=
  match v with
  | JStr s => s
  | _ => repr v
  end.

End Py.

(** ** The persistence layer

    [models.py] is not among the sources; its classes are modelled from
    the data model of the specification. *)

(** Modelled from the spec: the class [Question] of [models.py] is
    missing. The specification gives a question an integer [id], the
    texts [question] and [answer], and the integers [difficulty] and
    [category]; [format()] gives the entity as it is put in a response. *)
Module Question.

Record t : Type := {
  id : Z;
  question : string;
  answer : string;
  difficulty : Z;
  category : Z
}.

Definition format (q : t) : json :=
  JObj [("id", JNum (id q));
        ("question", JStr (question q));
        ("answer", JStr (answer q));
        ("category", JNum (category q));
        ("difficulty", JNum (difficulty q))].

End Question.

(** Modelled from the spec: the class [Category] of [models.py] is
    missing. A category has an integer [id] and a text label [type]. *)
Module Category.

Record t : Type := {
  id : Z;
  type : string
}.

End Category.

(** The two tables, in the order in which the storage engine returns
    their rows when no order is asked for, and the next id it assigns to
    a question. *)
Record Store : Type := {
  questions : list Question.t;
  categories : list Category.t;
  next_id : Z
}.

(** Primary keys: ids are unique in each table, and the ids in use are
    below the next one to be assigned. *)
Definition wf_store (st : Store) : Prop :=
  NoDup (Question.id <$> questions st) /\
  NoDup (Category.id <$> categories st) /\
  Forall (fun q => Question.id q < next_id st) (questions st).

Module Query.

(** [Question.query.all()] *)
Definition all_questions (st : Store) : list Question.t := questions st.

(** [Question.query.order_by(Question.id).all()] *)
Definition question_id_le (a b : Question.t) : Prop :=
  Question.id a <= Question.id b.

#[global] Instance question_id_le_dec : RelDecision question_id_le :=
  fun a b => Z_le_dec (Question.id a) (Question.id b).

Definition questions_by_id (st : Store) : list Question.t :=
  merge_sort question_id_le (questions st).

(** [Category.query.order_by(Category.id).all()] *)
Definition category_id_le (a b : Category.t) : Prop :=
  Category.id a <= Category.id b.

#[global] Instance category_id_le_dec : RelDecision category_id_le :=
  fun a b => Z_le_dec (Category.id a) (Category.id b).

Definition categories_by_id (st : Store) : list Category.t :=
  merge_sort category_id_le (categories st).

(** [Question.query.get(id)]: the row with that primary key, or
    [None]. *)
Definition get (st : Store) (id : Z) : option Question.t :=
  List.find (fun q => Z.eqb (Question.id q) id) (questions st).

(** [Question.query.filter_by(category=id).all()] for an integer. *)
Definition filter_by_category (st : Store) (id : Z) : list Question.t :=
  List.filter (fun q => Z.eqb (Question.category q) id) (questions st).

(** [Category.query.filter_by(id=id).one_or_none()]: no row is [None],
    one row is that row, several rows are an exception. *)
Definition category_one_or_none (st : Store) (id : Z) : result (option Category.t) :=
  match List.filter (fun c => Z.eqb (Category.id c) id) (categories st) with
  | [] => Ok None
  | [c] => Ok (Some c)
  | _ => Raise StorageError
  end.

(** *** [ILIKE]

    In a pattern [%] stands for any run of characters, [_] for any one
    character, and a backslash takes the next character literally.
    Letters are compared without regard to case. *)
Definition lower (c : ascii) : ascii :=
  let n := N_of_ascii c in
  if ((65 <=? n) && (n <=? 90))%N then ascii_of_N (n + 32) else c.

Fixpoint like (pattern : list ascii) : list ascii -> bool :=
  match pattern with
  | [] => fun s => match s with [] => true | _ => false end
  | p :: pattern' =>
      if Ascii.eqb p "%" then
        fix skip (s : list ascii) : bool :=
          like pattern' s ||
          match s with
          | [] => false
          | _ :: s' => skip s'
          end
      else if Ascii.eqb p "_" then
        fun s => match s with [] => false | _ :: s' => like pattern' s' end
      else if Ascii.eqb p "\" then
        match pattern' with
        | [] => fun _ => false
        | q :: pattern'' =>
            fun s => match s with
                     | [] => false
                     | c :: s' => Ascii.eqb q c && like pattern'' s'
                     end
        end
      else
        fun s => match s with
                 | [] => false
                 | c :: s' => Ascii.eqb p c && like pattern' s'
                 end
  end.

Definition ilike (pattern text : string) : bool :=
  like (lower <$> list_ascii_of_string pattern) (lower <$> list_ascii_of_string text).

(** [Question.query.filter(Question.question.ilike(pattern)).all()] *)
Definition filter_question_ilike (st : Store) (pattern : string) : list Question.t :=
  List.filter (fun q => ilike pattern (Question.question q)) (questions st).

End Query.

(** *** The storage engine

    What the storage engine makes of a Python value that is bound to a
    text or to an integer column is its own affair: the handlers take
    the engine's reading of a value as the parameters [text_column] and
    [integer_column], [None] when the engine rejects the value. Whether
    the engine commits a write or raises is the input [fault] of the
    write. *)
Module Engine.

(** The reading that accepts a value of the column's own type and
    nothing else. *)
Definition strict_text (v : json) : option string :=
  match v with
  | JStr s => Some s
  | _ => None
  end.

Definition strict_integer (v : json) : option Z :=
  match v with
  | JNum n => Some n
  | _ => None
  end.

Definition bound {A : Type} (reading : option A) : result A :=
  match reading with
  | Some a => Ok a
  | None => Raise StorageError
  end.

End Engine.

(** The store after a new row has been committed: the row gets the next
    id. *)
Definition with_new_question (st : Store) (q a : string) (d c : Z) : Store :=
  let row := {| Question.id := next_id st;
                Question.question := q;
                Question.answer := a;
                Question.difficulty := d;
                Question.category := c |} in
  {| questions := questions st ++ [row];
     categories := categories st;
     next_id := next_id st + 1 |}.

Section Writes.

Context (text_column : json -> option string).
Context (integer_column : json -> option Z).

(** Modelled from the spec: [Question(...).insert()] of [models.py] is
    missing. The specification has it construct and persist a new
    question, the storage assigning the id; a persistence fault leaves
    the store as it was. *)
Definition Question_insert (fault : bool)
    (question answer difficulty category : json) (st : Store) : result Store :=
  q ← Engine.bound (text_column question);
  a ← Engine.bound (text_column answer);
  d ← Engine.bound (integer_column difficulty);
  c ← Engine.bound (integer_column category);
  if fault then Raise StorageError
  else Ok (with_new_question st q a d c).

(** [Question.query.filter_by(category=value).all()] for a value of
    the request: a comparison with [None] is [IS NULL], which no row
    satisfies; any other value is read as an integer by the engine. *)
Definition filter_by_category_value (st : Store) (value : json) : result (list Question.t) :=
  match value with
  | JNull => Ok []
  | _ =>
      id ← Engine.bound (integer_column value);
      Ok (Query.filter_by_category st id)
  end.

End Writes.

(** The store after the row with an id has been deleted. *)
Definition without (id : Z) (st : Store) : Store :=
  {| questions := List.filter (fun r => negb (Z.eqb (Question.id r) id)) (questions st);
     categories := categories st;
     next_id := next_id st |}.

(** Modelled from the spec: [question.delete()] of [models.py] is
    missing. The specification has it remove the question permanently; a
    fault leaves the store as it was. Calling it on [None], the result
    of a lookup that found nothing, is an [AttributeError]. *)
Definition Question_delete (fault : bool) (question : option Question.t) (st : Store) : result Store :=
  match question with
  | None => Raise AttributeError
  | Some q =>
      if fault then Raise StorageError
      else Ok (without (Question.id q) st)
  end.

(** ** Flask: responses, error handlers, query arguments *)

Inductive body : Type :=
| Failure (error : Z) (message : string)
| Message (message : string)
| CategoriesBody (categories : gmap Z string)
| QuestionsBody (total_questions : Z) (categories : gmap Z string) (questions : list json)
| SearchBody (questions : list json) (total_questions : Z)
| CategoryQuestionsBody (questions : list json) (total_questions : Z) (current_category : string)
| QuizBody (question : json)
| DefaultErrorPage.

(** A response is the pair [jsonify(...), status] that a handler
    returns. *)
Definition response : Type := body * Z.

Definition status (r : response) : Z := snd r.

(** The four [@app.errorhandler] functions. A code without a handler
    gets the framework's own page. *)
Definition errorhandler (code : Z) : response :=
  if Z.eqb code 400 then (Failure 400 "Bad request error", 400)
  else if Z.eqb code 404 then (Failure 404 "Resource not found", 404)
  else if Z.eqb code 500 then (Failure 500 "An error has occured, please try again", 500)
  else if Z.eqb code 422 then (Failure 422 "Unprocessable entity", 422)
  else (DefaultErrorPage, code).

(** What the framework sends for a view function's outcome: its
    response, the handler of the code it aborted with, or the handler of
    500 for any other exception. *)
Definition serve (r : result response) : response :=
  match r with
  | Ok resp => resp
  | Raise (HTTPException code) => errorhandler code
  | Raise _ => errorhandler 500
  end.

(** [request.args.get(key, default, type=int)]: the default when the
    key is absent, and also when [int] raises on its value, which it
    does with a [ValueError] and nothing else. The converter is an
    argument of the call, and it is one here: [int] is Python's [int] on
    the strings of a query. *)
Definition args_get_int (int : string -> result Z) (args : gmap string string)
    (key : string) (default : Z) : Z :=
  match args !! key with
  | None => default
  | Some s =>
      match int s with
      | Ok n => n
      | Raise _ => default
      end
  end.

(** ** The application

    A handler that reads a body takes [data], the value that
    [request.get_json()] has returned to it: the parsed body, [None]
    when the request carries no JSON. A body that does not parse never
    gives a [data]: [get_json] answers it with the 400 of the
    framework. *)

Definition QUESTIONS_PER_PAGE : Z := 10.

(** [request.args.get('page', 1, type=int)] *)
Definition page_number (int : string -> result Z) (args : gmap string string) : Z :=
  args_get_int int args "page" 1.

Definition __get_paginated_questions (int : string -> result Z) (args : gmap string string)
    (questions : list Question.t) (num_of_questions : Z) : list json :=
  let page := page_number int args in
  let start := (page - 1) * num_of_questions in
  let end_ := start + num_of_questions in
  let questions := Question.format <$> questions in
  let current_questions := Py.slice questions start end_ in
  current_questions.

(** The loop [for category in categories: categories_dict[category.id] =
    category.type]. *)
Definition categories_dict (categories : list Category.t) : gmap Z string :=
  foldl (fun d c => <[Category.id c := Category.type c]> d) ∅ categories.

Definition len {A : Type} (l : list A) : Z := Z.of_nat (length l).

(** [GET /categories] *)
Definition get_all_categories (st : Store) : result response :=
  try_except
    (let categories := categories st in
     Ok (CategoriesBody (categories_dict categories), 200))
    (abort 500).

(** [GET /questions] *)
Definition get_questions (int : string -> result Z) (args : gmap string string)
    (st : Store) : result response :=
  let questions := Query.questions_by_id st in
  let total_questions := len questions in
  let categories := Query.categories_by_id st in
  let current_questions := __get_paginated_questions int args questions QUESTIONS_PER_PAGE in
  if Z.eqb (len current_questions) 0 then abort 404
  else
    Ok (QuestionsBody total_questions (categories_dict categories) current_questions, 200).

(** [DELETE /questions/<int:id>] *)
Definition delete_question (fault : bool) (id : Z) (st : Store) : result response * Store :=
  let question := Query.get st id in
  match Question_delete fault question st with
  | Ok st' => (Ok (Message "Question successfully deleted", 200), st')
  | Raise _ => (abort 422, st)
  end.

(** [POST /questions]. The four fields are read before the [try]
    begins: an exception of [data.get] leaves the handler. *)
Definition create_question (text_column : json -> option string)
    (integer_column : json -> option Z) (fault : bool)
    (data : json) (st : Store) : result response * Store :=
  match
    question ← Py.get data "question" (JStr "");
    answer ← Py.get data "answer" (JStr "");
    difficulty ← Py.get data "difficulty" (JStr "");
    category ← Py.get data "category" (JStr "");
    Ok (question, answer, difficulty, category)
  with
  | Raise e => (Raise e, st)
  | Ok (question, answer, difficulty, category) =>
      if Py.eq_empty_str question || Py.eq_empty_str answer
         || Py.eq_empty_str difficulty || Py.eq_empty_str category
      then (abort 422, st)
      else
        match Question_insert text_column integer_column fault
                question answer difficulty category st with
        | Ok st' => (Ok (Message "Question successfully created!", 201), st')
        | Raise _ => (abort 422, st)
        end
  end.

(** [POST /questions/search]. The term is read before the [try]
    begins. *)
Definition search_questions (int : string -> result Z) (args : gmap string string)
    (data : json) (st : Store) : result response :=
  search_term ← Py.get data "searchTerm" (JStr "");
  if Py.eq_empty_str search_term then abort 422
  else
    let search_term := "%" ++ Py.str search_term ++ "%" in
    try_except
      (let questions := Query.filter_question_ilike st search_term in
       if Z.eqb (len questions) 0 then abort 404
       else
         let paginated_questions :=
           __get_paginated_questions int args questions QUESTIONS_PER_PAGE in
         Ok (SearchBody paginated_questions (len (Query.all_questions st)), 200))
      (abort 404).

(** [GET /categories/<int:id>/questions]; a response without a status
    has status 200. *)
Definition get_questions_by_category (int : string -> result Z)
    (args : gmap string string) (id : Z) (st : Store) : result response :=
  category ← Query.category_one_or_none st id;
  match category with
  | None => abort 422
  | Some category =>
      let questions := Query.filter_by_category st id in
      let paginated_questions :=
        __get_paginated_questions int args questions QUESTIONS_PER_PAGE in
      Ok (CategoryQuestionsBody paginated_questions (len questions)
            (Category.type category), 200)
  end.

(** [POST /quizzes]

    The [while] loop has no bound of its own. The model runs it for at
    most [fuel] rounds: [None] says that the handler is still in the
    loop after that many, [Some] gives what the handler did. *)
Section Quiz.

Context (rng : nat -> nat).
Context (questions : list Question.t).
Context (previous_questions : json).

(** [get_random_question()], at the [k]th use of the generator. *)
Definition get_random_question (k : nat) : result Question.t :=
  i ← Py.randint rng k 0 (len questions - 1);
  Py.index questions i.

Fixpoint quiz_loop (fuel : nat) (k : nat) (next_question : Question.t)
    : option (result Question.t) :=
  match fuel with
  | O => None
  | S fuel' =>
      match Py.contains_int previous_questions (Question.id next_question) with
      | Raise e => Some (Raise e)
      | Ok true =>
          match get_random_question k with
          | Raise e => Some (Raise e)
          | Ok q => quiz_loop fuel' (S k) q
          end
      | Ok false => Some (Ok next_question)
      end
  end.

End Quiz.

Definition is_none (v : json) : bool :=
  match v with
  | JNull => true
  | _ => false
  end.

(** The candidate pool of the quiz. *)
Definition quiz_pool (integer_column : json -> option Z) (quiz_category : json)
    (st : Store) : result (list Question.t) :=
  id ← Py.getitem quiz_category "id";
  if Py.eq_int id 0 then Ok (Query.all_questions st)
  else filter_by_category_value integer_column st id.

Definition quiz_get_next_question (integer_column : json -> option Z)
    (rng : nat -> nat) (fuel : nat) (data : json) (st : Store)
    : option (result response) :=
  match
    previous_questions ← Py.get data "previous_questions" JNull;
    quiz_category ← Py.get data "quiz_category" JNull;
    Ok (previous_questions, quiz_category)
  with
  | Raise e => Some (Raise e)
  | Ok (previous_questions, quiz_category) =>
      if is_none quiz_category || is_none previous_questions then Some (abort 400)
      else
        match quiz_pool integer_column quiz_category st with
        | Raise e => Some (Raise e)
        | Ok questions =>
            match get_random_question rng questions 0%nat with
            | Raise e => Some (Raise e)
            | Ok next_question =>
                match quiz_loop rng questions previous_questions fuel 1%nat next_question with
                | None => None
                | Some (Raise e) => Some (Raise e)
                | Some (Ok next_question) =>
                    Some (Ok (QuizBody (Question.format next_question), 200))
                end
            end
        end
  end.

(** ** The page of the specification

    For a page number from 1 on, the entities at the positions
    [(page-1)*10] up to, and without, [(page-1)*10+10]. It is compared
    with [__get_paginated_questions] below. *)

Definition spec_page {A : Type} (page : Z) (entities : list A) : list A :=
  take 10 (drop (Z.to_nat ((page - 1) * 10)) entities).

(** ** Substrings without regard to case

    The reading of the search that the specification gives: the term
    occurs in the text as a run of characters, letters compared without
    regard to case. It is compared with [Query.ilike] below. *)

Definition lowered (s : string) : list ascii :=
  Query.lower <$> list_ascii_of_string s.

Definition contains_ignoring_case (term text : string) : Prop :=
  exists before after : list ascii, lowered text = (before ++ lowered term ++ after)%list.

(** The characters that a pattern does not take literally. *)
Definition wildcard (c : ascii) : bool :=
  Ascii.eqb c "%" || Ascii.eqb c "_" || Ascii.eqb c "\".

Definition literal (term : string) : Prop :=
  Forall (fun c => wildcard c = false) (list_ascii_of_string term).

(** The term of a search as a string, and the pattern that
    [search_questions] makes of it. *)
Definition search_term (data : json) : string :=
  Py.str (Py.dict_get data "searchTerm" (JStr "")).

Definition search_pattern (data : json) : string :=
  "%" ++ search_term data ++ "%".

(** ** Sample data *)

Module Sample.

Definition q (id : Z) (text : string) (category : Z) : Question.t :=
  {| Question.id := id; Question.question := text; Question.answer := "yes";
     Question.difficulty := 1; Question.category := category |}.

Definition store : Store :=
  {| questions := [q 2 "Which lake is the largest lake in Africa?" 3;
                   q 1 "Who painted La Giaconda?" 2;
                   q 5 "Which country won the first soccer World Cup?" 6];
     categories := [{| Category.id := 2; Category.type := "Art" |};
                    {| Category.id := 3; Category.type := "Geography" |};
                    {| Category.id := 6; Category.type := "Sports" |};
                    {| Category.id := 4; Category.type := "History" |}];
     next_id := 6 |}.

(** Twenty-five questions of one category, with the ids 1 to 25. *)
Definition many : list Question.t :=
  (fun i => q i "Which dung beetle?" 1) <$> seqZ 1 25.

(** A body whose four fields are all present and none of them the
    empty string, with an object for the difficulty. *)
Definition object_difficulty : json :=
  JObj [("question", JStr "Which dung beetle?");
        ("answer", JStr "Scarab");
        ("difficulty", JObj [("level", JNum 1)]);
        ("category", JNum 1)].

Definition well_formed : json :=
  JObj [("question", JStr "Which dung beetle?");
        ("answer", JStr "Scarab");
        ("difficulty", JNum 4);
        ("category", JNum 1)].

(** The body of a quiz request. *)
Definition quiz (previous_questions : list Z) (category : Z) : json :=
  JObj [("previous_questions", JArr (JNum <$> previous_questions));
        ("quiz_category", JObj [("type", JStr "click"); ("id", JNum category)])].

(** The body of a search. *)
Definition search (term : json) : json := JObj [("searchTerm", term)].

Definition many_store : Store :=
  {| questions := many; categories := categories store; next_id := 26 |}.

End Sample.

(** ** Routing

    The converter [<int:id>] of the route [/questions/<int:id>] takes a
    path segment of one or more digits and reads it in base ten; for
    any other segment the route does not match. A path that no route
    matches is answered through the handler of 404; a path that a route
    matches for another method only, as [/questions/search] does for
    [POST], is answered 405, for which the application has no handler.
    The segments of the model are ASCII, as the decimal numerals are
    that the tests put into a path: the digits that Unicode has beyond
    ASCII and the interpreter's limit on the length of a numeral are
    outside it. *)

Module Router.

Fixpoint digits_value (acc : Z) (s : list ascii) : option Z :=
  match s with
  | [] => Some acc
  | c :: s' =>
      match Py.digit_value c with
      | Some d => digits_value (10 * acc + d) s'
      | None => None
      end
  end.

Definition int_converter (segment : string) : option Z :=
  match list_ascii_of_string segment with
  | [] => None
  | c :: s => digits_value 0 (c :: s)
  end.

(** [DELETE /questions/<segment>] *)
Definition delete_question_at (fault : bool) (segment : string) (st : Store)
    : result response * Store :=
  match int_converter segment with
  | Some id => delete_question fault id st
  | None => if decide (segment = "search") then (abort 405, st) else (abort 404, st)
  end.

End Router.

(** A response that is not one of the error handlers': it has the given
    status and its body is not a failure. *)
Definition succeeds (r : response) (code : Z) : Prop :=
  status r = code /\ forall error message, fst r <> Failure error message.

(** An exception that is not an [abort]. *)
Definition unhandled (e : exn) : Prop :=
  match e with
  | HTTPException _ => False
  | _ => True
  end.

(** A value that is neither a list nor an object nor [None]. *)
Definition scalar (v : json) : Prop :=
  match v with
  | JBool _ | JNum _ | JStr _ => True
  | JNull | JArr _ | JObj _ => False
  end.

(** ** The helper of the tests

    [__create_test_question] of [test_flaskr.py] inserts a question with
    the difficulty [1] and the category ['1'], a string, and returns the
    id that the storage gave it. *)

Definition __create_test_question (text_column : json -> option string)
    (integer_column : json -> option Z) (fault : bool) (st : Store) : result (Z * Store) :=
  st' ← Question_insert text_column integer_column fault
          (JStr "This is a test question that should deleted")
          (JStr "This is a test question that should deleted")
          (JNum 1) (JStr "1") st;
  Ok (next_id st, st').

(** A reading of integer columns that also takes a string that spells
    an integer, as a database does with a quoted literal. *)
Module Coercing.

Definition integer (v : json) : option Z :=
  match v with
  | JNum n => Some n
  | JStr s =>
      match Py.int s with
      | Ok n => Some n
      | Raise _ => None
      end
  | _ => None
  end.

End Coercing.

(** * Properties *)

(** ** Slices and pages *)

Section Slice.

Context {A : Type}.
Implicit Types l : list A.

Lemma slice_forward l (start stop : Z) :
  0 <= start -> start <= stop ->
  Py.slice l start stop = take (Z.to_nat (stop - start)) (drop (Z.to_nat start) l).
Proof.
  intros Hstart Hle. unfold Py.slice, Py.slice_index.
  rewrite !(proj2 (Z.ltb_ge _ 0)) by lia.
  destruct (Z_le_gt_dec start (Z.of_nat (length l))) as [Hin | Hout].
  - rewrite (Z.min_l start) by lia.
    destruct (Z_le_gt_dec stop (Z.of_nat (length l))) as [Hs | Hs].
    + by rewrite Z.min_l by lia.
    + rewrite Z.min_r by lia.
      rewrite !take_ge; [done | rewrite length_drop; lia ..].
  - rewrite !Z.min_r by lia.
    rewrite Z.sub_diag, take_0.
    rewrite drop_ge by lia. by rewrite take_nil.
Qed.

Lemma slice_stop_zero l (start : Z) : Py.slice l start 0 = [].
Proof.
  unfold Py.slice, Py.slice_index. rewrite Z.ltb_irrefl.
  match goal with |- take ?n _ = _ => replace n with 0%nat; [apply take_0 |] end.
  destruct (Z.ltb_spec start 0); lia.
Qed.

Lemma slice_from_end l (a b : Z) :
  0 < b -> b <= a -> a <= Z.of_nat (length l) ->
  Py.slice l (- a) (- b)
  = take (Z.to_nat (a - b)) (drop (length l - Z.to_nat a) l).
Proof.
  intros Hb Hab Hlen. unfold Py.slice, Py.slice_index.
  rewrite !(proj2 (Z.ltb_lt _ 0)) by lia.
  rewrite !Z.max_r by lia.
  f_equal; [lia |]. f_equal. lia.
Qed.

Lemma slice_submseteq l (start stop : Z) : Py.slice l start stop ⊆ l.
Proof.
  unfold Py.slice. etrans; [apply subseteq_take | apply subseteq_drop].
Qed.

End Slice.

Lemma len_nil_iff {A : Type} (l : list A) : Z.eqb (len l) 0 = true <-> l = [].
Proof.
  unfold len. rewrite Z.eqb_eq. destruct l; simpl; split; (done || lia).
Qed.

Lemma len_fmap {A B : Type} (f : A -> B) (l : list A) : len (f <$> l) = len l.
Proof. unfold len. by rewrite length_fmap. Qed.

(** The page of a request, as the helper computes it. *)
Lemma paginated_slice int args qs num :
  __get_paginated_questions int args qs num
  = Py.slice (Question.format <$> qs)
      ((page_number int args - 1) * num)
      ((page_number int args - 1) * num + num).
Proof. reflexivity. Qed.

Lemma paginated_elem int args qs num (x : json) :
  x ∈ __get_paginated_questions int args qs num ->
  exists q, x = Question.format q /\ q ∈ qs.
Proof.
  rewrite paginated_slice. intros Hx.
  apply slice_submseteq in Hx. by apply list_elem_of_fmap in Hx.
Qed.

(** From page 1 on, the helper computes the page of the
    specification. *)
Lemma paginated_spec_page int args qs :
  1 <= page_number int args ->
  __get_paginated_questions int args qs QUESTIONS_PER_PAGE
  = spec_page (page_number int args) (Question.format <$> qs).
Proof.
  intros Hp. rewrite paginated_slice. unfold QUESTIONS_PER_PAGE, spec_page.
  rewrite slice_forward by lia. do 2 f_equal. lia.
Qed.

Lemma spec_page_len {A : Type} (p : Z) (l : list A) :
  1 <= p -> (p - 1) * 10 < len l ->
  len (spec_page p l) = Z.min 10 (len l - (p - 1) * 10).
Proof.
  intros Hp Hlt. unfold spec_page, len in *.
  rewrite length_take, length_drop. lia.
Qed.

(** ** The order of [GET /questions] *)

#[local] Instance question_id_le_total : Total Query.question_id_le.
Proof. intros a b. unfold Query.question_id_le. lia. Qed.

Lemma questions_by_id_sorted st : Sorted Query.question_id_le (Query.questions_by_id st).
Proof. apply (Sorted_merge_sort _). Qed.

Lemma questions_by_id_perm st : Query.questions_by_id st ≡ₚ questions st.
Proof. apply merge_sort_Permutation. Qed.

Lemma questions_by_id_len st : len (Query.questions_by_id st) = len (questions st).
Proof. unfold len. by rewrite (questions_by_id_perm st). Qed.

(** ** The query argument [page] *)

Lemma page_number_absent (int : string -> result Z) (args : gmap string string) :
  args !! "page" = None -> page_number int args = 1.
Proof. unfold page_number, args_get_int. by intros ->. Qed.

Lemma page_number_invalid (int : string -> result Z) (args : gmap string string) s :
  args !! "page" = Some s -> int s = Raise ValueError -> page_number int args = 1.
Proof. unfold page_number, args_get_int. by intros -> ->. Qed.

Lemma page_number_valid (int : string -> result Z) (args : gmap string string) s n :
  args !! "page" = Some s -> int s = Ok n -> page_number int args = n.
Proof. unfold page_number, args_get_int. by intros -> ->. Qed.

(** [int] raises nothing but [ValueError]. *)
Lemma int_raises_ValueError s e : Py.int s = Raise e -> e = ValueError.
Proof. unfold Py.int. repeat case_match; congruence. Qed.

(** ** [GET /questions] *)

Lemma get_questions_page_found int args st :
  __get_paginated_questions int args (Query.questions_by_id st) QUESTIONS_PER_PAGE <> [] ->
  get_questions int args st
  = Ok (QuestionsBody (len (questions st))
          (categories_dict (Query.categories_by_id st))
          (__get_paginated_questions int args (Query.questions_by_id st) QUESTIONS_PER_PAGE),
        200).
Proof.
  intros Hne. unfold get_questions. rewrite questions_by_id_len.
  destruct (Z.eqb _ 0) eqn:Hzero; [| done].
  by apply len_nil_iff in Hzero.
Qed.

Lemma get_questions_page_empty int args st :
  __get_paginated_questions int args (Query.questions_by_id st) QUESTIONS_PER_PAGE = [] ->
  get_questions int args st = abort 404.
Proof. unfold get_questions. by intros ->. Qed.

Lemma get_questions_in_range int args st :
  1 <= page_number int args -> (page_number int args - 1) * 10 < len (questions st) ->
  get_questions int args st
  = Ok (QuestionsBody (len (questions st))
          (categories_dict (Query.categories_by_id st))
          (spec_page (page_number int args) (Question.format <$> Query.questions_by_id st)),
        200).
Proof.
  intros Hp Hlt. rewrite <- (paginated_spec_page _ _ _ Hp).
  apply get_questions_page_found. rewrite (paginated_spec_page _ _ _ Hp).
  intros Hnil.
  pose proof (spec_page_len (page_number int args)
                (Question.format <$> Query.questions_by_id st) Hp) as Hlen.
  rewrite len_fmap, questions_by_id_len, Hnil in Hlen.
  specialize (Hlen Hlt). unfold len in *. simpl in Hlen. lia.
Qed.

Lemma get_questions_only_reads_page (int : string -> result Z)
    (args args' : gmap string string) st :
  page_number int args = page_number int args' ->
  get_questions int args st = get_questions int args' st.
Proof.
  intros Heq. unfold get_questions. by rewrite !paginated_slice, Heq.
Qed.

(** C4. [GET /questions] lists the questions in the order of their ids.
    For a page number [p] from 1 on whose slice starts inside the table,
    it answers 200 with the sub-sequence from [(p-1)*10] up to
    [(p-1)*10+10] of the formatted list, which holds [min(10,
    remaining)] questions, and with [total_questions] the number of all
    questions of the store. Whenever the slice of the page is empty the
    answer is the 404 of the error handler. *)
Theorem get_questions_page (int : string -> result Z) (args : gmap string string) (st : Store) :
  (Sorted Query.question_id_le (Query.questions_by_id st)
   /\ Query.questions_by_id st ≡ₚ questions st) /\
  (1 <= page_number int args -> (page_number int args - 1) * 10 < len (questions st) ->
     serve (get_questions int args st)
     = (QuestionsBody (len (questions st))
          (categories_dict (Query.categories_by_id st))
          (spec_page (page_number int args) (Question.format <$> Query.questions_by_id st)),
        200)
     /\ len (spec_page (page_number int args) (Question.format <$> Query.questions_by_id st))
        = Z.min 10 (len (questions st) - (page_number int args - 1) * 10)) /\
  (__get_paginated_questions int args (Query.questions_by_id st) QUESTIONS_PER_PAGE = [] ->
     serve (get_questions int args st) = (Failure 404 "Resource not found", 404)).
Proof.
  split; [| split].
  - split; [apply questions_by_id_sorted | apply questions_by_id_perm].
  - intros Hp Hlt. rewrite (get_questions_in_range _ _ _ Hp Hlt). split; [done |].
    rewrite spec_page_len; rewrite ?len_fmap, ?questions_by_id_len; done.
  - intros Hempty. by rewrite get_questions_page_empty.
Qed.

Lemma get_questions_page_witness :
  serve (get_questions Py.int {["page" := "3"]} Sample.many_store)
  = (QuestionsBody 25 (categories_dict (Query.categories_by_id Sample.many_store))
       (Question.format <$> [Sample.q 21 "Which dung beetle?" 1;
                             Sample.q 22 "Which dung beetle?" 1;
                             Sample.q 23 "Which dung beetle?" 1;
                             Sample.q 24 "Which dung beetle?" 1;
                             Sample.q 25 "Which dung beetle?" 1]), 200)
  /\ serve (get_questions Py.int {["page" := "4"]} Sample.many_store)
     = (Failure 404 "Resource not found", 404).
Proof.
  split.
  - destruct (get_questions_page Py.int {["page" := "3"]} Sample.many_store) as [_ [H _]].
    destruct H as [H _]; [vm_compute; discriminate | vm_compute; reflexivity |].
    rewrite H. vm_compute. reflexivity.
  - apply (get_questions_page Py.int {["page" := "4"]} Sample.many_store).
    vm_compute. reflexivity.
Defined.

(** C3 as it stands fails: a page that is not an integer is answered
    with the first page and status 200. *)
Lemma page_not_integer_counterexample :
  Py.int "abc" = Raise ValueError /\
  serve (get_questions Py.int {["page" := "abc"]} Sample.store)
  = (QuestionsBody 3 (categories_dict (Query.categories_by_id Sample.store))
       (Question.format <$> [Sample.q 1 "Who painted La Giaconda?" 2;
                             Sample.q 2 "Which lake is the largest lake in Africa?" 3;
                             Sample.q 5 "Which country won the first soccer World Cup?" 6]),
     200).
Proof. split; vm_compute; reflexivity. Qed.

(** C3, amended. When the query argument [page] is present and [int]
    raises [ValueError] on it, the page number is the default 1: the
    request is answered like one without a page, with 200 and the first
    page when the store has a question, and with 404 only when it has
    none. *)
Theorem page_not_integer_is_first_page (int : string -> result Z)
    (args : gmap string string) (st : Store) (s : string) :
  args !! "page" = Some s -> int s = Raise ValueError ->
  page_number int args = 1 /\
  get_questions int args st = get_questions int ∅ st /\
  (questions st <> [] ->
     serve (get_questions int args st)
     = (QuestionsBody (len (questions st))
          (categories_dict (Query.categories_by_id st))
          (take 10 (Question.format <$> Query.questions_by_id st)), 200)) /\
  (questions st = [] ->
     serve (get_questions int args st) = (Failure 404 "Resource not found", 404)).
Proof.
  intros Hs Hint.
  pose proof (page_number_invalid int args s Hs Hint) as Hpage.
  split; [exact Hpage |]. split; [| split].
  - apply get_questions_only_reads_page. by rewrite Hpage.
  - intros Hne. rewrite get_questions_in_range.
    + by rewrite Hpage.
    + rewrite Hpage. lia.
    + rewrite Hpage. unfold len. destruct (questions st); [done | simpl; lia].
  - intros Hnil. rewrite get_questions_page_empty; [done |].
    assert (Hsorted : Query.questions_by_id st = []).
    { apply Permutation_nil_r. rewrite <- Hnil. apply questions_by_id_perm. }
    rewrite paginated_slice, Hsorted. unfold Py.slice.
    by rewrite fmap_nil, drop_nil, take_nil.
Qed.

Lemma page_not_integer_is_first_page_witness :
  serve (get_questions Py.int {["page" := "1.5"]} Sample.store)
  = (QuestionsBody 3 (categories_dict (Query.categories_by_id Sample.store))
       (Question.format <$> [Sample.q 1 "Who painted La Giaconda?" 2;
                             Sample.q 2 "Which lake is the largest lake in Africa?" 3;
                             Sample.q 5 "Which country won the first soccer World Cup?" 6]),
     200).
Proof.
  pose proof (page_not_integer_is_first_page Py.int {["page" := "1.5"]} Sample.store "1.5") as H.
  destruct H as [_ [_ [H _]]]; [reflexivity | reflexivity |].
  rewrite H; [vm_compute; reflexivity | discriminate].
Defined.

(** ** Pages below the first *)

(** C10. The helper rejects no page number. For page 0 the slice runs
    from -10 to 0 and is empty for every list. For page -1 it runs from
    -20 to -10: over a list of more than 20 questions these are the ten
    questions that come before the last ten, so the result is not empty
    and is taken from the end of the list. *)
Theorem pagination_below_first_page (int : string -> result Z)
    (args : gmap string string) (qs : list Question.t) :
  (page_number int args = 0 ->
     __get_paginated_questions int args qs QUESTIONS_PER_PAGE
     = Py.slice (Question.format <$> qs) (-10) 0
     /\ __get_paginated_questions int args qs QUESTIONS_PER_PAGE = []) /\
  (page_number int args = -1 -> 20 < len qs ->
     __get_paginated_questions int args qs QUESTIONS_PER_PAGE
     = Py.slice (Question.format <$> qs) (-20) (-10)
     /\ __get_paginated_questions int args qs QUESTIONS_PER_PAGE
        = take 10 (drop (length qs - 20) (Question.format <$> qs))
     /\ length (__get_paginated_questions int args qs QUESTIONS_PER_PAGE) = 10%nat).
Proof.
  split.
  - intros Hpage. rewrite paginated_slice, Hpage. unfold QUESTIONS_PER_PAGE.
    change ((0 - 1) * 10) with (-10). change (-10 + 10) with 0.
    split; [done | apply slice_stop_zero].
  - intros Hpage Hlen. rewrite paginated_slice, Hpage. unfold QUESTIONS_PER_PAGE.
    change ((-1 - 1) * 10) with (-20). change (-20 + 10) with (-10).
    unfold len in Hlen.
    assert (Hslice : Py.slice (Question.format <$> qs) (-20) (-10)
                     = take 10 (drop (length qs - 20) (Question.format <$> qs))).
    { change (-20) with (- (20)). change (-10) with (- (10)).
      rewrite slice_from_end by (rewrite ?length_fmap; lia).
      by rewrite length_fmap. }
    split; [done |]. split; [exact Hslice |].
    rewrite Hslice, length_take, length_drop, length_fmap. lia.
Qed.

Lemma pagination_below_first_page_witness :
  __get_paginated_questions Py.int {["page" := "0"]} Sample.many QUESTIONS_PER_PAGE = [] /\
  __get_paginated_questions Py.int {["page" := "-1"]} Sample.many QUESTIONS_PER_PAGE
  = Question.format <$> ((fun i => Sample.q i "Which dung beetle?" 1) <$> seqZ 6 10).
Proof.
  split.
  - apply (pagination_below_first_page Py.int {["page" := "0"]} Sample.many). reflexivity.
  - destruct (pagination_below_first_page Py.int {["page" := "-1"]} Sample.many) as [_ H].
    destruct H as [_ [H _]]; [reflexivity | reflexivity |].
    rewrite H. vm_compute. reflexivity.
Defined.

(** ** [DELETE /questions/<id>] *)

Lemma get_Some_id st id q : Query.get st id = Some q -> Question.id q = id.
Proof.
  unfold Query.get. intros H. apply find_some in H as [_ H]. lia.
Qed.

Lemma get_without st id : Query.get (without id st) id = None.
Proof.
  unfold Query.get, without. simpl.
  induction (questions st) as [| r rs IH]; [done |]. simpl.
  destruct (Z.eqb_spec (Question.id r) id) as [Heq | Hne]; simpl; [exact IH |].
  destruct (Z.eqb_spec (Question.id r) id); [done | exact IH].
Qed.

Lemma get_None_without st id : Query.get st id = None -> without id st = st.
Proof.
  unfold Query.get, without. destruct st as [qs cs n]. simpl. intros H. f_equal.
  induction qs as [| r rs IH]; [done |]. simpl in *.
  destruct (Z.eqb_spec (Question.id r) id); [done |]. simpl. f_equal. by apply IH.
Qed.

Lemma delete_question_found fault id st q :
  Query.get st id = Some q ->
  delete_question fault id st
  = if fault then (abort 422, st)
    else (Ok (Message "Question successfully deleted", 200), without id st).
Proof.
  intros Hget. unfold delete_question, Question_delete. rewrite Hget.
  destruct fault; [done |]. by rewrite (get_Some_id _ _ _ Hget).
Qed.

Lemma delete_question_not_found fault id st :
  Query.get st id = None -> delete_question fault id st = (abort 422, st).
Proof. intros Hget. unfold delete_question. by rewrite Hget. Qed.

Lemma get_without_ne st id id' :
  id' <> id -> Query.get (without id st) id' = Query.get st id'.
Proof.
  intros Hne. unfold Query.get, without. simpl.
  induction (questions st) as [| r rs IH]; [done |]. simpl.
  destruct (Z.eqb_spec (Question.id r) id) as [Heq | Hneq]; simpl.
  - destruct (Z.eqb_spec (Question.id r) id'); [congruence | exact IH].
  - destruct (Z.eqb_spec (Question.id r) id'); [done | exact IH].
Qed.

(** C5. For an integer id, [DELETE /questions/id] answers 200 with the
    message "Question successfully deleted" and removes the question for
    good when the id resolves to a stored question and the delete does
    not fault; the other questions stay. When the id does not resolve,
    or the delete faults, the answer is 422 and the store is unchanged.
    So the same id deleted twice gives 200 and then 422. *)
Theorem delete_question_spec (fault : bool) (id : Z) (st : Store) :
  (is_Some (Query.get st id) -> fault = false ->
     serve (fst (delete_question fault id st))
     = (Message "Question successfully deleted", 200)
     /\ snd (delete_question fault id st) = without id st
     /\ Query.get (snd (delete_question fault id st)) id = None
     /\ (forall id', id' <> id ->
           Query.get (snd (delete_question fault id st)) id' = Query.get st id')) /\
  (Query.get st id = None \/ fault = true ->
     serve (fst (delete_question fault id st))
     = (Failure 422 "Unprocessable entity", 422)
     /\ snd (delete_question fault id st) = st) /\
  (is_Some (Query.get st id) ->
     forall fault' : bool,
       status (serve (fst (delete_question false id st))) = 200
       /\ status (serve (fst (delete_question fault' id
                                (snd (delete_question false id st))))) = 422
       /\ snd (delete_question fault' id (snd (delete_question false id st)))
          = snd (delete_question false id st)).
Proof.
  split; [| split].
  - intros [q Hq] ->. rewrite (delete_question_found _ _ _ _ Hq). simpl.
    split; [done |]. split; [done |]. split; [apply get_without |].
    intros id' Hne. by apply get_without_ne.
  - intros [Hnone | ->].
    + by rewrite (delete_question_not_found _ _ _ Hnone).
    + destruct (Query.get st id) as [q |] eqn:Hq.
      * by rewrite (delete_question_found _ _ _ _ Hq).
      * by rewrite (delete_question_not_found _ _ _ Hq).
  - intros [q Hq] fault'.
    rewrite (delete_question_found _ _ _ _ Hq). simpl.
    rewrite (delete_question_not_found _ _ _ (get_without st id)). done.
Qed.

Lemma delete_question_spec_witness :
  status (serve (fst (delete_question false 2 Sample.store))) = 200
  /\ status (serve (fst (delete_question false 2
                           (snd (delete_question false 2 Sample.store))))) = 422
  /\ snd (delete_question false 2 (snd (delete_question false 2 Sample.store)))
     = snd (delete_question false 2 Sample.store).
Proof.
  apply (delete_question_spec false 2 Sample.store). vm_compute. eauto.
Defined.

(** ** The body of a request *)

Lemma get_dict (data : json) key default :
  Py.is_dict data -> Py.get data key default = Ok (Py.dict_get data key default).
Proof. by destruct data. Qed.

Lemma get_not_dict (data : json) key default :
  ~ Py.is_dict data -> Py.get data key default = Raise AttributeError.
Proof. destruct data; simpl; tauto. Qed.

Lemma lookup_is_dict (data : json) key v : data !! key = Some v -> Py.is_dict data.
Proof. by destruct data. Qed.

Lemma is_dict_dec (data : json) : Py.is_dict data \/ ~ Py.is_dict data.
Proof. destruct data; simpl; tauto. Qed.

(** ** [POST /questions] *)

(** On a dict the four fields are read, and the handler goes on. *)
Lemma create_question_dict tc ic fault (data : json) st :
  Py.is_dict data ->
  create_question tc ic fault data st
  = let question := Py.dict_get data "question" (JStr "") in
    let answer := Py.dict_get data "answer" (JStr "") in
    let difficulty := Py.dict_get data "difficulty" (JStr "") in
    let category := Py.dict_get data "category" (JStr "") in
    if Py.eq_empty_str question || Py.eq_empty_str answer
       || Py.eq_empty_str difficulty || Py.eq_empty_str category
    then (abort 422, st)
    else
      match Question_insert tc ic fault question answer difficulty category st with
      | Ok st' => (Ok (Message "Question successfully created!", 201), st')
      | Raise _ => (abort 422, st)
      end.
Proof. intros Hdict. unfold create_question. by rewrite !get_dict. Qed.

(** On anything else the first [data.get] raises, outside the [try]. *)
Lemma create_question_not_dict tc ic fault (data : json) st :
  ~ Py.is_dict data ->
  create_question tc ic fault data st = (Raise AttributeError, st).
Proof. intros Hdict. unfold create_question. by rewrite !get_not_dict. Qed.

Lemma field_empty_iff (data : json) key :
  Py.eq_empty_str (Py.dict_get data key (JStr "")) = true
  <-> data !! key = None \/ data !! key = Some (JStr "").
Proof.
  unfold Py.dict_get, Py.eq_empty_str.
  destruct (data !! key) as [v |].
  - destruct v; try (split; [done | intros [? | ?]; congruence]).
    case_decide as Hs; [subst; naive_solver |].
    split; [done | intros [? | ?]; congruence].
  - case_decide; naive_solver.
Qed.

Lemma field_not_empty (data : json) key v :
  data !! key = Some v -> v <> JStr "" ->
  Py.dict_get data key (JStr "") = v
  /\ Py.eq_empty_str (Py.dict_get data key (JStr "")) = false.
Proof.
  intros Hv Hne. split; [unfold Py.dict_get; by rewrite Hv |].
  apply not_true_is_false. rewrite field_empty_iff, Hv.
  intros [Habsent | Hempty]; congruence.
Qed.

Lemma create_question_empty tc ic fault (data : json) st key :
  Py.is_dict data ->
  key ∈ ["question"; "answer"; "difficulty"; "category"] ->
  data !! key = None \/ data !! key = Some (JStr "") ->
  create_question tc ic fault data st = (abort 422, st).
Proof.
  intros Hdict Hkey Hempty. apply field_empty_iff in Hempty.
  rewrite create_question_dict by done. cbv zeta.
  repeat (apply elem_of_cons in Hkey as [-> | Hkey]);
    [.. | by apply elem_of_nil in Hkey];
    rewrite Hempty, ?orb_true_r; reflexivity.
Qed.

Lemma create_question_filled tc ic fault (data : json) st vq va vd vc :
  data !! "question" = Some vq -> vq <> JStr "" ->
  data !! "answer" = Some va -> va <> JStr "" ->
  data !! "difficulty" = Some vd -> vd <> JStr "" ->
  data !! "category" = Some vc -> vc <> JStr "" ->
  create_question tc ic fault data st
  = match Question_insert tc ic fault vq va vd vc st with
    | Ok st' => (Ok (Message "Question successfully created!", 201), st')
    | Raise _ => (abort 422, st)
    end.
Proof.
  intros Hq Hq' Ha Ha' Hd Hd' Hc Hc'.
  rewrite create_question_dict by (by eapply lookup_is_dict). cbv zeta.
  destruct (field_not_empty _ _ _ Hq Hq') as [-> ->].
  destruct (field_not_empty _ _ _ Ha Ha') as [-> ->].
  destruct (field_not_empty _ _ _ Hd Hd') as [-> ->].
  destruct (field_not_empty _ _ _ Hc Hc') as [-> ->].
  reflexivity.
Qed.

Lemma Question_insert_accepted tc ic vq va vd vc st q a d c :
  tc vq = Some q -> tc va = Some a -> ic vd = Some d -> ic vc = Some c ->
  Question_insert tc ic false vq va vd vc st = Ok (with_new_question st q a d c).
Proof. unfold Question_insert. by intros -> -> -> ->. Qed.

Lemma Question_insert_fault tc ic fault vq va vd vc st :
  tc vq = None \/ tc va = None \/ ic vd = None \/ ic vc = None \/ fault = true ->
  exists e, Question_insert tc ic fault vq va vd vc st = Raise e.
Proof.
  unfold Question_insert. intros H.
  destruct (tc vq); simpl; [| by eauto].
  destruct (tc va); simpl; [| by eauto].
  destruct (ic vd); simpl; [| by eauto].
  destruct (ic vc); simpl; [| by eauto].
  destruct fault; [by eauto |].
  destruct H as [H | [H | [H | [H | H]]]]; discriminate.
Qed.

(** Primary keys survive the two writes. *)
Lemma wf_with_new_question st q a d c : wf_store st -> wf_store (with_new_question st q a d c).
Proof.
  intros (Hq & Hc & Hlt). unfold wf_store, with_new_question. simpl.
  split; [| split; [exact Hc |]].
  - rewrite fmap_app. apply NoDup_app. split; [exact Hq |]. split.
    + intros x Hx Hx'. simpl in Hx'. apply list_elem_of_singleton in Hx'. subst x.
      apply list_elem_of_fmap in Hx as (r & Hid & Hr).
      rewrite Forall_forall in Hlt. specialize (Hlt r Hr). lia.
    + simpl. apply NoDup_singleton.
  - apply Forall_app. split.
    + eapply Forall_impl; [exact Hlt |]. simpl. intros; lia.
    + apply Forall_singleton. simpl. lia.
Qed.

Lemma wf_without st id : wf_store st -> wf_store (without id st).
Proof.
  intros (Hq & Hc & Hlt). unfold wf_store, without. simpl.
  split; [| split; [exact Hc |]].
  - clear Hlt. induction (questions st) as [| r rs IH]; [done |].
    simpl in *. apply NoDup_cons in Hq as [Hr Hrs].
    destruct (negb _); [| by apply IH].
    simpl. apply NoDup_cons. split; [| by apply IH].
    intros Hin. apply Hr. apply list_elem_of_fmap in Hin as (r' & Hid & Hr').
    apply list_elem_of_In, filter_In in Hr' as [Hr' _].
    apply list_elem_of_fmap. exists r'. split; [done | by apply list_elem_of_In].
  - rewrite Forall_forall in Hlt. apply Forall_forall. intros r Hr.
    apply Hlt. apply list_elem_of_In, filter_In in Hr as [Hr _]. by apply list_elem_of_In.
Qed.

Lemma next_id_fresh st : wf_store st -> Query.get st (next_id st) = None.
Proof.
  intros (_ & _ & Hlt). unfold Query.get.
  destruct (find _ _) as [r |] eqn:Hfind; [| done].
  apply find_some in Hfind as [Hr Hid].
  rewrite Forall_forall in Hlt. apply list_elem_of_In in Hr. specialize (Hlt r Hr). lia.
Qed.

(** C6 as it stands fails: with a JSON object for the body, all four
    fields present and none of them empty, the request is answered 422
    and nothing is stored when the storage rejects the record, here an
    object given for the integer difficulty. *)
Lemma create_question_counterexample :
  Py.is_dict Sample.object_difficulty /\
  Forall (fun key => exists v, Sample.object_difficulty !! key = Some v /\ v <> JStr "")
    ["question"; "answer"; "difficulty"; "category"] /\
  create_question Engine.strict_text Engine.strict_integer false
    Sample.object_difficulty Sample.store
  = (abort 422, Sample.store).
Proof.
  split; [exact I |]. split; [| vm_compute; reflexivity].
  repeat (apply List.Forall_cons; [eexists; split; [vm_compute; reflexivity | discriminate] |]).
  apply List.Forall_nil.
Qed.

(** C6, amended. Let the body of the request be a JSON object. If one of
    [question], [answer], [difficulty], [category] is missing or is the
    empty string, the answer is 422 and the store is unchanged.
    Otherwise the record goes to the storage:
    when the storage accepts the four values and commits, a new question
    with these values and the next id of the storage, which no stored
    question has, is appended and the answer is 201 with the message
    "Question successfully created!"; when the storage faults, the answer
    is 422 and the store is unchanged. *)
Theorem create_question_spec (text_column : json -> option string)
    (integer_column : json -> option Z) (fault : bool)
    (data : json) (st : Store) :
  Py.is_dict data ->
  (forall key, key ∈ ["question"; "answer"; "difficulty"; "category"] ->
     data !! key = None \/ data !! key = Some (JStr "") ->
     serve (fst (create_question text_column integer_column fault data st))
     = (Failure 422 "Unprocessable entity", 422)
     /\ snd (create_question text_column integer_column fault data st) = st) /\
  (forall vq va vd vc,
     data !! "question" = Some vq -> vq <> JStr "" ->
     data !! "answer" = Some va -> va <> JStr "" ->
     data !! "difficulty" = Some vd -> vd <> JStr "" ->
     data !! "category" = Some vc -> vc <> JStr "" ->
     (forall q a d c,
        text_column vq = Some q -> text_column va = Some a ->
        integer_column vd = Some d -> integer_column vc = Some c ->
        fault = false ->
        serve (fst (create_question text_column integer_column fault data st))
        = (Message "Question successfully created!", 201)
        /\ snd (create_question text_column integer_column fault data st)
           = with_new_question st q a d c
        /\ len (questions (with_new_question st q a d c)) = len (questions st) + 1
        /\ (wf_store st ->
            Query.get st (next_id st) = None
            /\ wf_store (with_new_question st q a d c))) /\
     (text_column vq = None \/ text_column va = None \/
      integer_column vd = None \/ integer_column vc = None \/ fault = true ->
      serve (fst (create_question text_column integer_column fault data st))
      = (Failure 422 "Unprocessable entity", 422)
      /\ snd (create_question text_column integer_column fault data st) = st)).
Proof.
  intros Hdict. split.
  - intros key Hkey Hempty.
    by rewrite (create_question_empty _ _ _ _ _ _ Hdict Hkey Hempty).
  - intros vq va vd vc Hq Hq' Ha Ha' Hd Hd' Hc Hc'.
    rewrite (create_question_filled _ _ _ _ _ _ _ _ _ Hq Hq' Ha Ha' Hd Hd' Hc Hc').
    split.
    + intros q a d c Tq Ta Id Ic ->.
      rewrite (Question_insert_accepted _ _ _ _ _ _ _ _ _ _ _ Tq Ta Id Ic). simpl.
      split; [done |]. split; [done |]. split.
      * unfold len. rewrite length_app. simpl. lia.
      * intros Hwf. split; [by apply next_id_fresh | by apply wf_with_new_question].
    + intros Hfault.
      destruct (Question_insert_fault text_column integer_column fault vq va vd vc st Hfault)
        as [e ->].
      done.
Qed.

Lemma create_question_spec_witness :
  serve (fst (create_question Engine.strict_text Engine.strict_integer false
                Sample.well_formed Sample.store))
  = (Message "Question successfully created!", 201)
  /\ snd (create_question Engine.strict_text Engine.strict_integer false
            Sample.well_formed Sample.store)
     = with_new_question Sample.store "Which dung beetle?" "Scarab" 4 1.
Proof.
  destruct (create_question_spec Engine.strict_text Engine.strict_integer false
              Sample.well_formed Sample.store I) as [_ H].
  destruct (H (JStr "Which dung beetle?") (JStr "Scarab") (JNum 4) (JNum 1))
    as [Hok _]; try reflexivity; try discriminate.
  destruct (Hok "Which dung beetle?" "Scarab" 4 1) as (H1 & H2 & _); try reflexivity.
  split; [exact H1 | exact H2].
Defined.

(** ** [GET /categories/<id>/questions] *)

Lemma filter_category_absent (cs : list Category.t) id :
  (forall c, c ∈ cs -> Category.id c <> id) ->
  List.filter (fun c => Z.eqb (Category.id c) id) cs = [].
Proof.
  induction cs as [| c cs IH]; [done |]. intros Habsent. simpl.
  destruct (Z.eqb_spec (Category.id c) id) as [Heq | _].
  - exfalso. apply (Habsent c); [apply list_elem_of_here | exact Heq].
  - apply IH. intros c' Hc'. apply Habsent. by apply list_elem_of_further.
Qed.

Lemma filter_category_unique (cs : list Category.t) c :
  NoDup (Category.id <$> cs) -> c ∈ cs ->
  List.filter (fun c' => Z.eqb (Category.id c') (Category.id c)) cs = [c].
Proof.
  induction cs as [| c' cs IH]; intros Hnodup Hin.
  - by apply elem_of_nil in Hin.
  - simpl in Hnodup. apply NoDup_cons in Hnodup as [Hfresh Hnodup].
    apply elem_of_cons in Hin as [<- | Hin]; simpl.
    + rewrite Z.eqb_refl. f_equal. apply filter_category_absent.
      intros c' Hc' Heq. apply Hfresh. rewrite <- Heq.
      apply list_elem_of_fmap. by exists c'.
    + destruct (Z.eqb_spec (Category.id c') (Category.id c)) as [Heq | _].
      * exfalso. apply Hfresh. rewrite Heq. apply list_elem_of_fmap. by exists c.
      * by apply IH.
Qed.

Lemma filter_by_category_elem st id q :
  q ∈ Query.filter_by_category st id <-> q ∈ questions st /\ Question.category q = id.
Proof.
  unfold Query.filter_by_category.
  rewrite !list_elem_of_In, filter_In, Z.eqb_eq. done.
Qed.

(** C8. For an integer id: when no category has the id the answer is
    422. When a category has it, the answer is 200, with the page of the
    questions whose category is the id, so that every question in it has
    that category, with [total_questions] the number of the questions
    whose category is the id and with [current_category] the label of
    the category; a page without questions is answered 200 with the
    empty list, not 404. *)
Theorem get_questions_by_category_spec (int : string -> result Z)
    (args : gmap string string) (id : Z) (st : Store) :
  wf_store st ->
  ((forall c, c ∈ categories st -> Category.id c <> id) ->
     serve (get_questions_by_category int args id st)
     = (Failure 422 "Unprocessable entity", 422)) /\
  (forall c, c ∈ categories st -> Category.id c = id ->
     serve (get_questions_by_category int args id st)
     = (CategoryQuestionsBody
          (__get_paginated_questions int args (Query.filter_by_category st id) QUESTIONS_PER_PAGE)
          (len (Query.filter_by_category st id))
          (Category.type c), 200)
     /\ (forall x,
           x ∈ __get_paginated_questions int args (Query.filter_by_category st id)
                 QUESTIONS_PER_PAGE ->
           exists q, x = Question.format q /\ q ∈ questions st /\ Question.category q = id)
     /\ (forall q, q ∈ Query.filter_by_category st id
                   <-> q ∈ questions st /\ Question.category q = id)
     /\ (__get_paginated_questions int args (Query.filter_by_category st id) QUESTIONS_PER_PAGE
         = [] ->
         serve (get_questions_by_category int args id st)
         = (CategoryQuestionsBody [] (len (Query.filter_by_category st id))
              (Category.type c), 200))).
Proof.
  intros (_ & Hnodup & _). split.
  - intros Habsent. unfold get_questions_by_category, Query.category_one_or_none.
    by rewrite filter_category_absent.
  - intros c Hc Hid.
    assert (Hresp : serve (get_questions_by_category int args id st)
                    = (CategoryQuestionsBody
                         (__get_paginated_questions int args (Query.filter_by_category st id)
                            QUESTIONS_PER_PAGE)
                         (len (Query.filter_by_category st id))
                         (Category.type c), 200)).
    { unfold get_questions_by_category, Query.category_one_or_none.
      rewrite <- Hid. by rewrite filter_category_unique. }
    split; [exact Hresp |]. split; [| split].
    + intros x Hx. apply paginated_elem in Hx as (q & -> & Hq).
      apply filter_by_category_elem in Hq. by exists q.
    + intros q. apply filter_by_category_elem.
    + intros Hempty. by rewrite Hresp, Hempty.
Qed.

Lemma sample_store_wf : wf_store Sample.store.
Proof.
  unfold wf_store. simpl. split; [| split].
  - repeat (apply NoDup_cons; split; [rewrite ?elem_of_cons, elem_of_nil; lia |]).
    apply NoDup_nil_2.
  - repeat (apply NoDup_cons; split; [rewrite ?elem_of_cons, elem_of_nil; lia |]).
    apply NoDup_nil_2.
  - repeat (apply List.Forall_cons; [simpl; lia |]). apply List.Forall_nil.
Defined.

Lemma get_questions_by_category_spec_witness :
  serve (get_questions_by_category Py.int ∅ 6 Sample.store)
  = (CategoryQuestionsBody
       [Question.format (Sample.q 5 "Which country won the first soccer World Cup?" 6)]
       1 "Sports", 200)
  /\ serve (get_questions_by_category Py.int ∅ 4 Sample.store)
     = (CategoryQuestionsBody [] 0 "History", 200)
  /\ serve (get_questions_by_category Py.int ∅ 1987 Sample.store)
     = (Failure 422 "Unprocessable entity", 422).
Proof.
  split; [| split].
  - destruct (get_questions_by_category_spec Py.int ∅ 6 Sample.store sample_store_wf) as [_ H].
    destruct (H {| Category.id := 6; Category.type := "Sports" |}) as [-> _];
      [simpl; rewrite !elem_of_cons; tauto | reflexivity | vm_compute; reflexivity].
  - destruct (get_questions_by_category_spec Py.int ∅ 4 Sample.store sample_store_wf) as [_ H].
    destruct (H {| Category.id := 4; Category.type := "History" |}) as [-> _];
      [simpl; rewrite !elem_of_cons; tauto | reflexivity | vm_compute; reflexivity].
  - apply (get_questions_by_category_spec Py.int ∅ 1987 Sample.store sample_store_wf).
    intros c Hc. simpl in Hc. rewrite !elem_of_cons, elem_of_nil in Hc.
    destruct Hc as [-> | [-> | [-> | [-> | []]]]]; simpl; lia.
Defined.

(** ** [ILIKE] and substrings *)

Section Like.

Local Open Scope list_scope.

Lemma like_percent (p s : list ascii) :
Query.like ("%"%char :: p) s
= Query.like p s || match s with
                    | [] => false
                    | _ :: s' => Query.like ("%"%char :: p) s'
                    end.
Proof. by destruct s. Qed.

Lemma like_plain (c : ascii) (p s : list ascii) :
wildcard c = false ->
Query.like (c :: p) s
= match s with
  | [] => false
  | d :: s' => Ascii.eqb c d && Query.like p s'
  end.
Proof.
unfold wildcard. intros Hc.
apply orb_false_iff in Hc as [Hc Hbackslash].
apply orb_false_iff in Hc as [Hpercent Hunderscore].
simpl. rewrite Hpercent, Hunderscore, Hbackslash. by destruct s.
Qed.

Lemma like_percent_iff (p s : list ascii) :
Query.like ("%"%char :: p) s = true
<-> exists before rest, s = before ++ rest /\ Query.like p rest = true.
Proof.
induction s as [| c s IH]; rewrite like_percent, orb_true_iff.
- split.
  + intros [H | H]; [| done]. by exists [], [].
  + intros (before & rest & Heq & H). left.
    symmetry in Heq. apply app_eq_nil in Heq as [_ ->]. exact H.
- rewrite IH. split.
  + intros [H | (before & rest & -> & H)].
    * by exists [], (c :: s).
    * by exists (c :: before), rest.
  + intros (before & rest & Heq & H). destruct before as [| b before]; simpl in Heq.
    * left. by subst rest.
    * right. injection Heq as -> ->. by exists before, rest.
Qed.

Lemma like_literal_iff (t p s : list ascii) :
Forall (fun c => wildcard c = false) t ->
Query.like (t ++ p) s = true
<-> exists rest, s = t ++ rest /\ Query.like p rest = true.
Proof.
intros Ht. revert s. induction Ht as [| c t Hc Ht IH]; intros s; simpl app.
- split; [intros H; by exists s | by intros (rest & -> & H)].
- rewrite (like_plain c (t ++ p) s Hc). destruct s as [| d s].
  + split; [done | by intros (rest & Heq & _)].
  + rewrite andb_true_iff, IH. split.
    * intros [Hcd (rest & -> & H)]. apply Ascii.eqb_eq in Hcd as ->. by exists rest.
    * intros (rest & Heq & H). injection Heq as -> ->.
      split; [apply Ascii.eqb_refl | by exists rest].
Qed.

Lemma like_any (s : list ascii) : Query.like ["%"%char] s = true.
Proof. induction s as [| c s IH]; rewrite like_percent; [done |]. by rewrite IH, orb_true_r. Qed.

Lemma like_infix (t s : list ascii) :
Forall (fun c => wildcard c = false) t ->
Query.like ("%"%char :: t ++ ["%"%char]) s = true
<-> exists before after, s = before ++ t ++ after.
Proof.
intros Ht. rewrite like_percent_iff. split.
- intros (before & rest & -> & H). apply (like_literal_iff t _ _ Ht) in H as (after & -> & _).
  by exists before, after.
- intros (before & after & ->). exists before, (t ++ after). split; [done |].
  apply (like_literal_iff t _ _ Ht). exists after. split; [done | apply like_any].
Qed.

Lemma lower_wildcard (c : ascii) : wildcard (Query.lower c) = wildcard c.
Proof. destruct c as [[] [] [] [] [] [] [] []]; reflexivity. Qed.

Lemma list_ascii_of_string_app (s t : string) :
list_ascii_of_string (s ++ t)%string = list_ascii_of_string s ++ list_ascii_of_string t.
Proof. induction s as [| c s IH]; [done |]. simpl. by rewrite IH. Qed.

(** For a term without pattern characters, [ILIKE] with a [%] on either
  side is the search for a substring without regard to case. *)
Lemma ilike_contains (term text : string) :
literal term ->
Query.ilike ("%" ++ term ++ "%")%string text = true <-> contains_ignoring_case term text.
Proof.
intros Hterm. unfold Query.ilike, contains_ignoring_case, lowered.
change ("%" ++ term ++ "%")%string with (String "%" (term ++ "%")%string).
simpl list_ascii_of_string. rewrite list_ascii_of_string_app, fmap_cons, fmap_app.
change (Query.lower "%") with "%"%char.
change (Query.lower <$> list_ascii_of_string "%") with ["%"%char].
apply like_infix. apply Forall_fmap. unfold literal in Hterm.
eapply Forall_impl; [exact Hterm |]. simpl. intros c Hc. by rewrite lower_wildcard.
Qed.

Lemma ilike_percents (text : string) : Query.ilike "%%%" text = true.
Proof.
unfold Query.ilike. generalize (Query.lower <$> list_ascii_of_string text).
change (Query.lower <$> list_ascii_of_string "%%%") with ["%"; "%"; "%"]%char.
intros s. rewrite like_percent.
assert (H : Query.like ["%"; "%"]%char s = true) by (by rewrite like_percent, like_any).
by rewrite H.
Qed.

End Like.

(** ** [POST /questions/search] *)

Lemma filter_question_ilike_elem st pattern q :
  q ∈ Query.filter_question_ilike st pattern
  <-> q ∈ questions st /\ Query.ilike pattern (Question.question q) = true.
Proof.
  unfold Query.filter_question_ilike. by rewrite !list_elem_of_In, filter_In.
Qed.

Lemma filter_question_ilike_sublist st pattern :
  Query.filter_question_ilike st pattern `sublist_of` questions st.
Proof.
  unfold Query.filter_question_ilike.
  induction (questions st) as [| r rs IH]; [done |]. simpl.
  destruct (Query.ilike _ _); [apply sublist_skip | apply sublist_cons]; exact IH.
Qed.

(** On a dict the term is read, and the handler goes on. *)
Lemma search_questions_dict int args (data : json) st :
  Py.is_dict data ->
  search_questions int args data st
  = if Py.eq_empty_str (Py.dict_get data "searchTerm" (JStr "")) then abort 422
    else
      try_except
        (if Z.eqb (len (Query.filter_question_ilike st (search_pattern data))) 0
         then abort 404
         else
           Ok (SearchBody
                 (__get_paginated_questions int args
                    (Query.filter_question_ilike st (search_pattern data))
                    QUESTIONS_PER_PAGE)
                 (len (questions st)), 200))
        (abort 404).
Proof. intros Hdict. unfold search_questions. by rewrite get_dict. Qed.

(** On anything else [data.get] raises, outside the [try]. *)
Lemma search_questions_not_dict int args (data : json) st :
  ~ Py.is_dict data -> search_questions int args data st = Raise AttributeError.
Proof. intros Hdict. unfold search_questions. by rewrite get_not_dict. Qed.

Lemma search_questions_success int args (data : json) st :
  status (serve (search_questions int args data st)) = 200 ->
  search_questions int args data st
  = Ok (SearchBody
          (__get_paginated_questions int args
             (Query.filter_question_ilike st (search_pattern data)) QUESTIONS_PER_PAGE)
          (len (questions st)), 200).
Proof.
  destruct (is_dict_dec data) as [Hdict | Hdict].
  - rewrite search_questions_dict by done.
    destruct (Py.eq_empty_str _); [discriminate |].
    destruct (Z.eqb _ 0); [discriminate | done].
  - rewrite search_questions_not_dict by done. discriminate.
Qed.

(** The term [%] makes the pattern [%%%], which every text matches. *)
Lemma search_percent_matches_all (data : json) st :
  search_term data = "%" ->
  Query.filter_question_ilike st (search_pattern data) = questions st.
Proof.
  intros Hterm. unfold search_pattern, Query.filter_question_ilike. rewrite Hterm.
  induction (questions st) as [| r rs IH]; [done |]. simpl.
  rewrite ilike_percents. by rewrite IH.
Qed.

(** C7. In every successful answer of [POST /questions/search],
    [total_questions] is the number of all questions of the store, not
    the number of matches, and [questions] is the slice from
    [(page-1)*10] up to [(page-1)*10+10] of the formatted matches, taken
    in the order of the table; from page 1 on this is the page of the
    specification. The matches are the questions whose text matches the
    term under [ILIKE] with a [%] on either side. For a term without
    the characters [%], [_] and backslash these are the questions that
    contain the term as a substring without regard to case, as the
    claim has it. A term with such a character is read as a pattern:
    for the term [%] every question of the store is a match, whether
    its text has a [%] or not. *)
Theorem search_questions_spec (int : string -> result Z) (args : gmap string string)
    (data : json) (st : Store) :
  status (serve (search_questions int args data st)) = 200 ->
  serve (search_questions int args data st)
  = (SearchBody
       (Py.slice (Question.format <$> Query.filter_question_ilike st (search_pattern data))
          ((page_number int args - 1) * 10) ((page_number int args - 1) * 10 + 10))
       (len (questions st)), 200)
  /\ (1 <= page_number int args ->
      Py.slice (Question.format <$> Query.filter_question_ilike st (search_pattern data))
        ((page_number int args - 1) * 10) ((page_number int args - 1) * 10 + 10)
      = spec_page (page_number int args)
          (Question.format <$> Query.filter_question_ilike st (search_pattern data)))
  /\ Query.filter_question_ilike st (search_pattern data) `sublist_of` questions st
  /\ (forall q, q ∈ Query.filter_question_ilike st (search_pattern data)
                <-> q ∈ questions st
                    /\ Query.ilike (search_pattern data) (Question.question q) = true)
  /\ (literal (search_term data) ->
      forall q, q ∈ Query.filter_question_ilike st (search_pattern data)
                <-> q ∈ questions st
                    /\ contains_ignoring_case (search_term data) (Question.question q))
  /\ (search_term data = "%" ->
      Query.filter_question_ilike st (search_pattern data) = questions st).
Proof.
  intros Hok. rewrite (search_questions_success _ _ _ _ Hok).
  split; [done |]. split; [| split; [| split; [| split]]].
  - intros Hp. rewrite <- (paginated_spec_page int args _ Hp). apply paginated_slice.
  - apply filter_question_ilike_sublist.
  - intros q. apply filter_question_ilike_elem.
  - intros Hterm q. unfold search_pattern.
    by rewrite filter_question_ilike_elem, (ilike_contains _ _ Hterm).
  - apply search_percent_matches_all.
Qed.

Lemma search_questions_spec_witness :
  serve (search_questions Py.int ∅ (Sample.search (JStr "%")) Sample.store)
  = (SearchBody (Question.format <$> questions Sample.store) 3, 200)
  /\ Forall (fun q => ~ contains_ignoring_case "%" (Question.question q))
       (questions Sample.store).
Proof.
  split.
  - destruct (search_questions_spec Py.int ∅ (Sample.search (JStr "%")) Sample.store)
      as [-> _]; vm_compute; reflexivity.
  - unfold Sample.store. cbn [questions].
    repeat (apply List.Forall_cons;
            [intros (before & after & Htext);
             assert (Hin : "%"%char ∈ (before ++ lowered "%" ++ after)%list)
               by (rewrite !elem_of_app; right; left; apply list_elem_of_here);
             rewrite <- Htext in Hin; revert Hin;
             apply (proj1 (bool_decide_eq_false _)); vm_compute; reflexivity |]).
    apply List.Forall_nil.
Defined.

(** ** [POST /quizzes] *)

Section QuizLoop.

Context (rng : nat -> nat) (pool : list Question.t) (prev : json).

Lemma get_random_question_empty k :
  pool = [] -> get_random_question rng pool k = Raise ValueError.
Proof. intros ->. reflexivity. Qed.

Lemma get_random_question_elem k :
  pool <> [] -> exists q, get_random_question rng pool k = Ok q /\ q ∈ pool.
Proof.
  intros Hne. unfold get_random_question, Py.randint, len.
  assert (Hlen : (0 < length pool)%nat) by (destruct pool; [done | simpl; lia]).
  rewrite (proj2 (Z.ltb_ge _ _)) by lia. simpl. unfold Py.index.
  set (i := 0 + Z.of_nat (rng k) mod (Z.of_nat (length pool) - 1 - 0 + 1)).
  assert (Hi : 0 <= i < Z.of_nat (length pool)).
  { subst i. replace (Z.of_nat (length pool) - 1 - 0 + 1) with (Z.of_nat (length pool)) by lia.
    pose proof (Z.mod_pos_bound (Z.of_nat (rng k)) (Z.of_nat (length pool))). lia. }
  destruct (lookup_lt_is_Some_2 pool (Z.to_nat i)) as [q Hq]; [lia |].
  rewrite Hq. exists q. split; [done |]. by eapply list_elem_of_lookup_2.
Qed.

(** What the loop returns is a candidate that is not among the
    previous questions. *)
Lemma quiz_loop_sound fuel k next q :
  next ∈ pool ->
  quiz_loop rng pool prev fuel k next = Some (Ok q) ->
  q ∈ pool /\ Py.contains_int prev (Question.id q) = Ok false.
Proof.
  revert k next. induction fuel as [| fuel IH]; intros k next Hnext; [done |].
  simpl. destruct (Py.contains_int prev (Question.id next)) as [[] | e] eqn:Hin; [| | done].
  - destruct (get_random_question rng pool k) as [q' |] eqn:Hdraw; [| done].
    apply IH.
    destruct (get_random_question_elem k) as (q'' & Hq'' & Hel).
    { intros ->. by apply elem_of_nil in Hnext. }
    congruence.
  - intros [= <-]. done.
Qed.

(** The loop returns as soon as a candidate is not among the previous
    questions. *)
Lemma quiz_loop_returns fuel k next :
  Py.contains_int prev (Question.id next) = Ok false ->
  quiz_loop rng pool prev (S fuel) k next = Some (Ok next).
Proof. intros Hin. simpl. by rewrite Hin. Qed.

(** When every candidate is among the previous questions, no number of
    rounds is enough. *)
Lemma quiz_loop_excluded fuel k next :
  (forall q, q ∈ pool -> Py.contains_int prev (Question.id q) = Ok true) ->
  next ∈ pool ->
  quiz_loop rng pool prev fuel k next = None.
Proof.
  intros Hall. revert k next. induction fuel as [| fuel IH]; intros k next Hnext; [done |].
  simpl. rewrite (Hall next Hnext).
  destruct (get_random_question_elem k) as (q & -> & Hq).
  { intros ->. by apply elem_of_nil in Hnext. }
  by apply IH.
Qed.

End QuizLoop.

Lemma dict_get_not_none (data : json) key v :
  data !! key = Some v -> v <> JNull ->
  Py.dict_get data key JNull = v /\ is_none (Py.dict_get data key JNull) = false.
Proof.
  intros Hv Hne. unfold Py.dict_get. rewrite Hv. split; [done |]. by destruct v.
Qed.

Lemma dict_get_none (data : json) key :
  is_none (Py.dict_get data key JNull) = true
  <-> data !! key = None \/ data !! key = Some JNull.
Proof.
  unfold Py.dict_get. destruct (data !! key) as [v |].
  - destruct v; simpl; split; intros H; try done; try (by right);
      destruct H as [H | H]; congruence.
  - simpl. split; [by left | done].
Qed.

(** On a dict the two fields are read, and the handler goes on. *)
Lemma quiz_dict ic rng fuel (data : json) st :
  Py.is_dict data ->
  quiz_get_next_question ic rng fuel data st
  = let previous_questions := Py.dict_get data "previous_questions" JNull in
    let quiz_category := Py.dict_get data "quiz_category" JNull in
    if is_none quiz_category || is_none previous_questions then Some (abort 400)
    else
      match quiz_pool ic quiz_category st with
      | Raise e => Some (Raise e)
      | Ok questions =>
          match get_random_question rng questions 0%nat with
          | Raise e => Some (Raise e)
          | Ok next_question =>
              match quiz_loop rng questions previous_questions fuel 1%nat next_question with
              | None => None
              | Some (Raise e) => Some (Raise e)
              | Some (Ok next_question) =>
                  Some (Ok (QuizBody (Question.format next_question), 200))
              end
          end
      end.
Proof. intros Hdict. unfold quiz_get_next_question. by rewrite !get_dict. Qed.

(** On anything else the first [data.get] raises. *)
Lemma quiz_not_dict ic rng fuel (data : json) st :
  ~ Py.is_dict data ->
  quiz_get_next_question ic rng fuel data st = Some (Raise AttributeError).
Proof. intros Hdict. unfold quiz_get_next_question. by rewrite !get_not_dict. Qed.

Lemma quiz_fields_present ic rng fuel (data : json) st prev qc :
  data !! "previous_questions" = Some prev -> prev <> JNull ->
  data !! "quiz_category" = Some qc -> qc <> JNull ->
  quiz_get_next_question ic rng fuel data st
  = match quiz_pool ic qc st with
    | Raise e => Some (Raise e)
    | Ok pool =>
        match get_random_question rng pool 0%nat with
        | Raise e => Some (Raise e)
        | Ok next_question =>
            match quiz_loop rng pool prev fuel 1%nat next_question with
            | None => None
            | Some (Raise e) => Some (Raise e)
            | Some (Ok next_question) =>
                Some (Ok (QuizBody (Question.format next_question), 200))
            end
        end
    end.
Proof.
  intros Hp Hp' Hc Hc'.
  rewrite quiz_dict by (by eapply lookup_is_dict). cbv zeta.
  destruct (dict_get_not_none _ _ _ Hp Hp') as [-> ->].
  destruct (dict_get_not_none _ _ _ Hc Hc') as [-> ->].
  reflexivity.
Qed.

Lemma quiz_field_missing ic rng fuel (data : json) st :
  Py.is_dict data ->
  (data !! "quiz_category" = None \/ data !! "quiz_category" = Some JNull) \/
  (data !! "previous_questions" = None \/ data !! "previous_questions" = Some JNull) ->
  quiz_get_next_question ic rng fuel data st = Some (abort 400).
Proof.
  intros Hdict H. rewrite quiz_dict by done. cbv zeta.
  destruct H as [H | H]; apply dict_get_none in H; rewrite H, ?orb_true_r; reflexivity.
Qed.

Lemma quiz_pool_spec ic qc st pool :
  quiz_pool ic qc st = Ok pool ->
  exists cid, Py.getitem qc "id" = Ok cid /\
    (Py.eq_int cid 0 = true -> pool = questions st) /\
    (Py.eq_int cid 0 = false ->
       forall q, q ∈ pool -> q ∈ questions st /\ ic cid = Some (Question.category q)) /\
    (forall q, q ∈ pool -> q ∈ questions st).
Proof.
  unfold quiz_pool. destruct (Py.getitem qc "id") as [cid |]; [| done]. simpl.
  intros Hpool. exists cid. split; [done |].
  destruct (Py.eq_int cid 0).
  - injection Hpool as <-. done.
  - assert (Hfilter : forall q, q ∈ pool ->
              q ∈ questions st /\ ic cid = Some (Question.category q)).
    { unfold filter_by_category_value in Hpool.
      destruct cid; try (injection Hpool as <-; intros q Hq; by apply elem_of_nil in Hq);
        (destruct (ic _) as [m |] eqn:Hic; [| done]; simpl in Hpool;
         injection Hpool as <-; intros q Hq;
         apply filter_by_category_elem in Hq as [Hq <-]; done). }
    split; [done |]. split; [intros _; exact Hfilter |].
    intros q Hq. by apply Hfilter.
Qed.

Lemma dict_get_present (data : json) key :
  is_none (Py.dict_get data key JNull) = false ->
  exists v, data !! key = Some v /\ v <> JNull.
Proof.
  unfold Py.dict_get. destruct (data !! key) as [v |]; [| done].
  intros Hv. exists v. split; [done |]. by intros ->.
Qed.

Lemma contains_int_list (items : list json) (n : Z) :
  Py.contains_int (JArr items) n = Ok false -> JNum n ∉ items.
Proof.
  simpl. intros [= Hex] Hin.
  assert (Htrue : existsb (fun v => Py.eq_int v n) items = true); [| congruence].
  apply existsb_exists. exists (JNum n). split; [by apply list_elem_of_In |].
  simpl. apply Z.eqb_refl.
Qed.

(** C1. Whenever [POST /quizzes] answers with a question, the request
    carries both [previous_questions] and [quiz_category], the answer is
    200 with a question of the candidate pool whose id is not contained
    in [previous_questions], the pool is all questions when
    [quiz_category.id] is 0, and otherwise the category of the question
    is [quiz_category.id] as the storage reads it. *)
Theorem quiz_question_spec (integer_column : json -> option Z) (rng : nat -> nat)
    (fuel : nat) (data : json) (st : Store) (resp : response) :
  quiz_get_next_question integer_column rng fuel data st = Some (Ok resp) ->
  exists prev qc cid pool q,
    data !! "previous_questions" = Some prev /\
    data !! "quiz_category" = Some qc /\
    Py.getitem qc "id" = Ok cid /\
    quiz_pool integer_column qc st = Ok pool /\
    resp = (QuizBody (Question.format q), 200) /\
    q ∈ pool /\ q ∈ questions st /\
    Py.contains_int prev (Question.id q) = Ok false /\
    (forall items, prev = JArr items -> JNum (Question.id q) ∉ items) /\
    (Py.eq_int cid 0 = false -> integer_column cid = Some (Question.category q)) /\
    (Py.eq_int cid 0 = true -> pool = questions st).
Proof.
  intros Hquiz.
  destruct (is_dict_dec data) as [Hdict | Hdict];
    [| by rewrite quiz_not_dict in Hquiz].
  destruct (is_none (Py.dict_get data "quiz_category" JNull)) eqn:Hqc.
  { rewrite quiz_field_missing in Hquiz; [done | done |]. left. by apply dict_get_none. }
  destruct (is_none (Py.dict_get data "previous_questions" JNull)) eqn:Hprev.
  { rewrite quiz_field_missing in Hquiz; [done | done |]. right. by apply dict_get_none. }
  apply dict_get_present in Hqc as (qc & Hqc & Hqc').
  apply dict_get_present in Hprev as (prev & Hprev & Hprev').
  rewrite (quiz_fields_present _ _ _ _ _ _ _ Hprev Hprev' Hqc Hqc') in Hquiz.
  destruct (quiz_pool integer_column qc st) as [pool |] eqn:Hpool; [| done].
  destruct (get_random_question rng pool 0) as [first |] eqn:Hfirst; [| done].
  destruct (quiz_loop rng pool prev fuel 1 first) as [[q | e] |] eqn:Hloop; [| done | done].
  injection Hquiz as <-.
  assert (Hfirst' : first ∈ pool).
  { destruct pool as [| q0 pool]; [by rewrite get_random_question_empty in Hfirst |].
    destruct (get_random_question_elem rng (q0 :: pool) 0) as (q' & Hq' & Hel); [done |].
    congruence. }
  destruct (quiz_loop_sound _ _ _ _ _ _ _ Hfirst' Hloop) as [Hq Hnew].
  destruct (quiz_pool_spec _ _ _ _ Hpool) as (cid & Hcid & Hall & Hcat & Hsub).
  exists prev, qc, cid, pool, q. repeat split; try done.
  - by apply Hsub.
  - intros items ->. by apply contains_int_list.
  - intros Hnz. by apply Hcat.
Qed.

Lemma quiz_question_spec_witness :
  exists prev qc cid pool q,
    Sample.quiz [5] 1 !! "previous_questions" = Some prev /\
    Sample.quiz [5] 1 !! "quiz_category" = Some qc /\
    Py.getitem qc "id" = Ok cid /\
    quiz_pool Engine.strict_integer qc Sample.many_store = Ok pool /\
    (QuizBody (Question.format (Sample.q 2 "Which dung beetle?" 1)), 200)
    = (QuizBody (Question.format q), 200) /\
    q ∈ pool /\ q ∈ questions Sample.many_store /\
    Py.contains_int prev (Question.id q) = Ok false /\
    (forall items, prev = JArr items -> JNum (Question.id q) ∉ items) /\
    (Py.eq_int cid 0 = false -> Engine.strict_integer cid = Some (Question.category q)) /\
    (Py.eq_int cid 0 = true -> pool = questions Sample.many_store).
Proof.
  apply (quiz_question_spec Engine.strict_integer (fun k => (4 - 3 * k)%nat) 5
           (Sample.quiz [5] 1) Sample.many_store).
  vm_compute. reflexivity.
Defined.

(** C2. The retry loop has no bound. When the request carries both
    fields, the candidate pool is not empty and the id of every
    candidate is contained in [previous_questions], the handler is still
    in its loop after any number of rounds, whatever the generator
    draws: it does not terminate, although the claim asks for a loop
    that ends when the pool is exhausted. *)
Theorem quiz_excluded_pool_never_returns (integer_column : json -> option Z)
    (rng : nat -> nat) (fuel : nat) (data : json) (st : Store)
    (prev qc : json) (pool : list Question.t) :
  data !! "previous_questions" = Some prev -> prev <> JNull ->
  data !! "quiz_category" = Some qc -> qc <> JNull ->
  quiz_pool integer_column qc st = Ok pool -> pool <> [] ->
  (forall q, q ∈ pool -> Py.contains_int prev (Question.id q) = Ok true) ->
  quiz_get_next_question integer_column rng fuel data st = None.
Proof.
  intros Hprev Hprev' Hqc Hqc' Hpool Hne Hall.
  rewrite (quiz_fields_present _ _ _ _ _ _ _ Hprev Hprev' Hqc Hqc'), Hpool.
  destruct (get_random_question_elem rng pool 0 Hne) as (first & -> & Hfirst).
  by rewrite (quiz_loop_excluded _ _ _ _ _ _ Hall Hfirst).
Qed.

Lemma quiz_excluded_pool_never_returns_witness :
  quiz_get_next_question Engine.strict_integer (fun k => k) 1000
    (Sample.quiz [1; 7] 2) Sample.store = None.
Proof.
  apply (quiz_excluded_pool_never_returns Engine.strict_integer (fun k => k) 1000
           (Sample.quiz [1; 7] 2) Sample.store
           (JArr [JNum 1; JNum 7])
           (JObj [("type", JStr "click"); ("id", JNum 2)])
           [Sample.q 1 "Who painted La Giaconda?" 2]);
    try reflexivity; try discriminate.
  intros q Hq. apply list_elem_of_singleton in Hq as ->. reflexivity.
Defined.

(** C9. [POST /quizzes] answers 400 when [previous_questions] or
    [quiz_category] is missing from the JSON object of the body, or is
    null. With both fields present and a candidate pool without
    questions, drawing the first question raises [ValueError], which no
    handler catches: the answer is 500, neither 200 nor 400. A body that
    is not a JSON object is answered 500 as well. *)
Theorem quiz_empty_pool_is_500 (integer_column : json -> option Z)
    (rng : nat -> nat) (fuel : nat) (data : json) (st : Store) :
  (Py.is_dict data ->
   (data !! "quiz_category" = None \/ data !! "quiz_category" = Some JNull) \/
   (data !! "previous_questions" = None \/ data !! "previous_questions" = Some JNull) ->
   serve <$> quiz_get_next_question integer_column rng fuel data st
   = Some (Failure 400 "Bad request error", 400)) /\
  (forall prev qc,
     data !! "previous_questions" = Some prev -> prev <> JNull ->
     data !! "quiz_category" = Some qc -> qc <> JNull ->
     quiz_pool integer_column qc st = Ok [] ->
     quiz_get_next_question integer_column rng fuel data st = Some (Raise ValueError)
     /\ serve <$> quiz_get_next_question integer_column rng fuel data st
        = Some (Failure 500 "An error has occured, please try again", 500)) /\
  (~ Py.is_dict data ->
   serve <$> quiz_get_next_question integer_column rng fuel data st
   = Some (Failure 500 "An error has occured, please try again", 500)).
Proof.
  split; [| split].
  - intros Hdict Hmissing. by rewrite quiz_field_missing.
  - intros prev qc Hprev Hprev' Hqc Hqc' Hpool.
    by rewrite (quiz_fields_present _ _ _ _ _ _ _ Hprev Hprev' Hqc Hqc'), Hpool.
  - intros Hdict. by rewrite quiz_not_dict.
Qed.

Lemma quiz_empty_pool_is_500_witness :
  serve <$> quiz_get_next_question Engine.strict_integer (fun k => k) 10
              (Sample.quiz [] 4) Sample.store
  = Some (Failure 500 "An error has occured, please try again", 500).
Proof.
  destruct (quiz_empty_pool_is_500 Engine.strict_integer (fun k => k) 10
              (Sample.quiz [] 4) Sample.store) as (_ & H & _).
  apply (H (JArr []) (JObj [("type", JStr "click"); ("id", JNum 4)]));
    try reflexivity; discriminate.
Defined.

(** * Further properties of the handlers *)

(** ** The pagination helper on every page *)

Lemma slice_index_range (n i : Z) : 0 <= n -> 0 <= Py.slice_index n i <= n.
Proof. intros Hn. unfold Py.slice_index. destruct (Z.ltb_spec i 0); lia. Qed.

Lemma slice_len {A : Type} (l : list A) (a b : Z) :
  len (Py.slice l a b) = Z.max 0 (Py.slice_index (len l) b - Py.slice_index (len l) a).
Proof.
  unfold Py.slice, len. rewrite length_take, length_drop.
  pose proof (slice_index_range (Z.of_nat (length l)) a).
  pose proof (slice_index_range (Z.of_nat (length l)) b). lia.
Qed.

Lemma slice_sublist {A : Type} (l : list A) (a b : Z) : Py.slice l a b `sublist_of` l.
Proof. unfold Py.slice. etrans; [apply sublist_take | apply sublist_drop]. Qed.

(** Whether the slice of page [p] over [n] entries holds anything. *)
Lemma nonempty_len {A : Type} (l : list A) : l <> [] <-> 0 < len l.
Proof. unfold len. destruct l; simpl; split; (done || lia). Qed.

Lemma page_slice_nonempty_iff {A : Type} (l : list A) (p : Z) :
  Py.slice l ((p - 1) * 10) ((p - 1) * 10 + 10) <> []
  <-> (1 <= p /\ (p - 1) * 10 < len l) \/ (p < 0 /\ - p * 10 < len l).
Proof.
  rewrite nonempty_len, slice_len. unfold Py.slice_index.
  assert (0 <= len l) by (unfold len; lia).
  destruct (Z.ltb_spec ((p - 1) * 10) 0), (Z.ltb_spec ((p - 1) * 10 + 10) 0); lia.
Qed.

(** X1. Whatever the page number, also below 1, the helper returns at
    most ten entries, and they are formatted questions of the list in
    the order of the list. *)
Theorem paginated_at_most_a_page (int : string -> result Z)
    (args : gmap string string) (qs : list Question.t) :
  len (__get_paginated_questions int args qs QUESTIONS_PER_PAGE) <= 10 /\
  __get_paginated_questions int args qs QUESTIONS_PER_PAGE `sublist_of` Question.format <$> qs.
Proof.
  rewrite paginated_slice. split; [| apply slice_sublist].
  rewrite slice_len. unfold Py.slice_index, QUESTIONS_PER_PAGE.
  assert (0 <= len (Question.format <$> qs)) by (unfold len; lia).
  destruct (Z.ltb_spec ((page_number int args - 1) * 10) 0),
    (Z.ltb_spec ((page_number int args - 1) * 10 + 10) 0); lia.
Qed.

(** X2. From page 1 on, the entry at offset [i] of page [p] is the
    entry at position [(p-1)*10 + i] of the formatted list, for the
    offsets below ten; a page has no further offsets. *)
Theorem paginated_lookup (int : string -> result Z)
    (args : gmap string string) (qs : list Question.t) (i : nat) :
  1 <= page_number int args ->
  __get_paginated_questions int args qs QUESTIONS_PER_PAGE !! i
  = if decide (i < 10)%nat
    then (Question.format <$> qs) !! (Z.to_nat ((page_number int args - 1) * 10) + i)%nat
    else None.
Proof.
  intros Hp. rewrite (paginated_spec_page _ _ _ Hp). unfold spec_page.
  case_decide as Hi.
  - rewrite lookup_take_lt by lia. by rewrite lookup_drop.
  - apply lookup_take_ge. lia.
Qed.

Lemma paginated_lookup_witness :
  __get_paginated_questions Py.int {["page" := "3"]} Sample.many QUESTIONS_PER_PAGE !! 2%nat
  = Some (Question.format (Sample.q 23 "Which dung beetle?" 1)).
Proof.
  rewrite (paginated_lookup Py.int {["page" := "3"]} Sample.many 2);
    [vm_compute; reflexivity | vm_compute; discriminate].
Defined.

(** X3. [GET /questions] answers 200 exactly when the page has an entry:
    for a page number [p] from 1 on, when [(p-1)*10] is below the number
    of questions; for a negative [p], when the number of questions is
    above [-p*10]; never for page 0. In every other case, a page number
    far beyond the data among them, the answer is the 404 of the error
    handler. *)
Theorem get_questions_found_iff (int : string -> result Z)
    (args : gmap string string) (st : Store) :
  (status (serve (get_questions int args st)) = 200
   <-> (1 <= page_number int args /\ (page_number int args - 1) * 10 < len (questions st))
       \/ (page_number int args < 0 /\ - page_number int args * 10 < len (questions st))) /\
  (serve (get_questions int args st) = (Failure 404 "Resource not found", 404)
   <-> ~ ((1 <= page_number int args /\ (page_number int args - 1) * 10 < len (questions st))
          \/ (page_number int args < 0 /\ - page_number int args * 10 < len (questions st)))).
Proof.
  pose proof (page_slice_nonempty_iff (Question.format <$> Query.questions_by_id st)
                (page_number int args)) as Hiff.
  rewrite len_fmap, questions_by_id_len in Hiff.
  change (Py.slice _ _ _) with
    (__get_paginated_questions int args (Query.questions_by_id st) QUESTIONS_PER_PAGE) in Hiff.
  destruct (decide (__get_paginated_questions int args (Query.questions_by_id st)
                      QUESTIONS_PER_PAGE = [])) as [Hnil | Hne].
  - rewrite (get_questions_page_empty _ _ _ Hnil). simpl.
    split; split; try done.
    + intros Hrange. apply Hiff in Hrange. done.
    + intros _ Hrange. apply Hiff in Hrange. done.
  - rewrite (get_questions_page_found _ _ _ Hne). simpl.
    split; split; try done.
    + intros _. by apply Hiff.
    + intros Hout. exfalso. apply Hout. by apply Hiff.
Qed.

Lemma get_questions_found_iff_witness :
  serve (get_questions Py.int {["page" := "10000000"]} Sample.many_store)
  = (Failure 404 "Resource not found", 404).
Proof.
  apply (get_questions_found_iff Py.int {["page" := "10000000"]} Sample.many_store).
  change (page_number Py.int {["page" := "10000000"]}) with 10000000.
  change (len (questions Sample.many_store)) with 25. lia.
Defined.

(** ** The dictionary of categories *)

Lemma categories_dict_lookup_from (acc : gmap Z string) (cs : list Category.t) (k : Z) :
  foldl (fun d c => <[Category.id c := Category.type c]> d) acc cs !! k
  = match last (List.filter (fun c => Z.eqb (Category.id c) k) cs) with
    | Some c => Some (Category.type c)
    | None => acc !! k
    end.
Proof.
  revert acc. induction cs as [| c cs IH]; intros acc; [done |].
  simpl. rewrite IH.
  destruct (Z.eqb_spec (Category.id c) k) as [Heq | Hne].
  - destruct (List.filter _ cs) as [| c' rest] eqn:Hrest.
    + simpl. subst k. apply lookup_insert_eq.
    + rewrite last_cons_cons.
      destruct (last (c' :: rest)) eqn:Hlast; [done |]. by apply last_None in Hlast.
  - destruct (last _); [done |]. by rewrite lookup_insert_ne.
Qed.

Lemma categories_dict_lookup (cs : list Category.t) (k : Z) :
  categories_dict cs !! k
  = Category.type <$> last (List.filter (fun c => Z.eqb (Category.id c) k) cs).
Proof.
  unfold categories_dict. rewrite categories_dict_lookup_from.
  destruct (last _); [done |]. by rewrite lookup_empty.
Qed.

Lemma categories_dict_unique (cs : list Category.t) (c : Category.t) :
  NoDup (Category.id <$> cs) -> c ∈ cs ->
  categories_dict cs !! Category.id c = Some (Category.type c).
Proof.
  intros Hnodup Hc. by rewrite categories_dict_lookup, filter_category_unique.
Qed.

Lemma categories_dict_absent (cs : list Category.t) (k : Z) :
  (forall c, c ∈ cs -> Category.id c <> k) -> categories_dict cs !! k = None.
Proof.
  intros Habsent. by rewrite categories_dict_lookup, filter_category_absent.
Qed.

Lemma categories_dict_perm (cs cs' : list Category.t) :
  NoDup (Category.id <$> cs) -> cs ≡ₚ cs' -> categories_dict cs = categories_dict cs'.
Proof.
  intros Hnodup Hperm. apply map_eq. intros k.
  assert (Hnodup' : NoDup (Category.id <$> cs')) by (by rewrite <- Hperm).
  destruct (decide (k ∈ Category.id <$> cs)) as [Hk | Hnone].
  - apply list_elem_of_fmap in Hk as (c & -> & Hc).
    rewrite (categories_dict_unique cs c Hnodup Hc).
    symmetry. apply categories_dict_unique; [done | by rewrite <- Hperm].
  - rewrite !categories_dict_absent; [done | |].
    + intros c Hc Hid. apply Hnone. apply list_elem_of_fmap.
      exists c. split; [done | by rewrite Hperm].
    + intros c Hc Hid. apply Hnone. apply list_elem_of_fmap. by exists c.
Qed.

(** X4. [GET /categories] answers 200 with a dictionary that has, under
    every id, the label of the last category of the table with that id,
    and that has a key exactly for the ids of the table. *)
Theorem get_all_categories_spec (st : Store) :
  serve (get_all_categories st)
  = (CategoriesBody (categories_dict (categories st)), 200) /\
  (forall k,
     categories_dict (categories st) !! k
     = Category.type <$>
         last (List.filter (fun c => Z.eqb (Category.id c) k) (categories st))) /\
  (forall k,
     is_Some (categories_dict (categories st) !! k)
     <-> exists c, c ∈ categories st /\ Category.id c = k).
Proof.
  split; [done |]. split; [intros k; apply categories_dict_lookup |].
  intros k. rewrite categories_dict_lookup. split.
  - intros [label Hlabel]. apply fmap_Some in Hlabel as (c & Hlast & _).
    apply last_Some_elem_of in Hlast.
    apply list_elem_of_In, filter_In in Hlast as [Hc Hid].
    exists c. split; [by apply list_elem_of_In | lia].
  - intros (c & Hc & Hid).
    destruct (last _) as [c' |] eqn:Hlast; [by eexists |].
    apply last_None in Hlast.
    assert (Hin : In c (List.filter (fun c => Z.eqb (Category.id c) k) (categories st))).
    { apply filter_In. split; [by apply list_elem_of_In | lia]. }
    rewrite Hlast in Hin. done.
Qed.

Lemma get_all_categories_spec_witness :
  categories_dict (categories Sample.store) !! 6 = Some "Sports"
  /\ categories_dict (categories Sample.store) !! 1987 = None.
Proof.
  destruct (get_all_categories_spec Sample.store) as (_ & H & _).
  split; rewrite H; reflexivity.
Defined.

(** X5. With unique category ids, [GET /questions] reports the same
    dictionary of categories as [GET /categories], although it reads the
    categories in the order of their ids: every category of the table is
    in it under its id with its label. *)
Theorem get_questions_categories (int : string -> result Z)
    (args : gmap string string) (st : Store) :
  wf_store st ->
  categories_dict (Query.categories_by_id st) = categories_dict (categories st) /\
  (forall c, c ∈ categories st ->
     categories_dict (categories st) !! Category.id c = Some (Category.type c)) /\
  (status (serve (get_questions int args st)) = 200 ->
     serve (get_questions int args st)
     = (QuestionsBody (len (questions st)) (categories_dict (categories st))
          (__get_paginated_questions int args (Query.questions_by_id st) QUESTIONS_PER_PAGE),
        200)
     /\ serve (get_all_categories st)
        = (CategoriesBody (categories_dict (categories st)), 200)).
Proof.
  intros (_ & Hnodup & _).
  assert (Hdict : categories_dict (Query.categories_by_id st)
                  = categories_dict (categories st)).
  { symmetry. apply categories_dict_perm; [done |].
    symmetry. apply merge_sort_Permutation. }
  split; [exact Hdict |]. split.
  - intros c Hc. by apply categories_dict_unique.
  - intros Hok. split; [| done].
    destruct (decide (__get_paginated_questions int args (Query.questions_by_id st)
                        QUESTIONS_PER_PAGE = [])) as [Hnil | Hne].
    + rewrite (get_questions_page_empty _ _ _ Hnil) in Hok. done.
    + rewrite (get_questions_page_found _ _ _ Hne). simpl. by rewrite Hdict.
Qed.

Lemma get_questions_categories_witness :
  categories_dict (Query.categories_by_id Sample.store)
  = categories_dict (categories Sample.store).
Proof. apply (get_questions_categories Py.int ∅ Sample.store sample_store_wf). Defined.

(** ** [POST /questions/search] on every outcome *)

Lemma paginated_first_page_all (int : string -> result Z)
    (args : gmap string string) (qs : list Question.t) :
  page_number int args = 1 -> len qs <= 10 ->
  __get_paginated_questions int args qs QUESTIONS_PER_PAGE = Question.format <$> qs.
Proof.
  intros Hp Hlen. rewrite paginated_spec_page by lia. rewrite Hp. unfold spec_page.
  simpl. apply take_ge. rewrite length_fmap. unfold len in Hlen. lia.
Qed.

Lemma paginated_beyond (int : string -> result Z)
    (args : gmap string string) (qs : list Question.t) :
  1 <= page_number int args -> len qs <= (page_number int args - 1) * 10 ->
  __get_paginated_questions int args qs QUESTIONS_PER_PAGE = [].
Proof.
  intros Hp Hlen. rewrite paginated_spec_page by lia. unfold spec_page.
  rewrite drop_ge; [apply take_nil |]. rewrite length_fmap. unfold len in Hlen. lia.
Qed.

Lemma search_questions_term (int : string -> result Z)
    (args : gmap string string) (data : json) st v :
  data !! "searchTerm" = Some v -> v <> JStr "" ->
  search_questions int args data st
  = if Z.eqb (len (Query.filter_question_ilike st (search_pattern data))) 0
    then abort 404
    else Ok (SearchBody
               (__get_paginated_questions int args
                  (Query.filter_question_ilike st (search_pattern data)) QUESTIONS_PER_PAGE)
               (len (questions st)), 200).
Proof.
  intros Hv Hne. rewrite search_questions_dict by (by eapply lookup_is_dict).
  destruct (field_not_empty _ _ _ Hv Hne) as [Hget ->].
  by destruct (Z.eqb _ 0).
Qed.

(** X6. [POST /questions/search] with a JSON object for its body
    answers 422 when [searchTerm] is missing or the empty string, 404
    when the term is there and no question matches it, and 200 in every
    other case: also for a page beyond the matches, which is answered
    200 with an empty list where [GET /questions] answers 404. A body
    that is not a JSON object, [null] and a list among them, is
    answered 500: [data.get] raises before the [try] begins. *)
Theorem search_questions_status (int : string -> result Z) (args : gmap string string)
    (data : json) (st : Store) :
  (~ Py.is_dict data ->
     search_questions int args data st = Raise AttributeError
     /\ serve (search_questions int args data st)
        = (Failure 500 "An error has occured, please try again", 500)) /\
  (Py.is_dict data ->
   data !! "searchTerm" = None \/ data !! "searchTerm" = Some (JStr "") ->
     serve (search_questions int args data st) = (Failure 422 "Unprocessable entity", 422)) /\
  (forall v, data !! "searchTerm" = Some v -> v <> JStr "" ->
     (Query.filter_question_ilike st (search_pattern data) = [] ->
        serve (search_questions int args data st) = (Failure 404 "Resource not found", 404)) /\
     (Query.filter_question_ilike st (search_pattern data) <> [] ->
        serve (search_questions int args data st)
        = (SearchBody
             (__get_paginated_questions int args
                (Query.filter_question_ilike st (search_pattern data)) QUESTIONS_PER_PAGE)
             (len (questions st)), 200)) /\
     (Query.filter_question_ilike st (search_pattern data) <> [] ->
      1 <= page_number int args ->
      len (Query.filter_question_ilike st (search_pattern data))
        <= (page_number int args - 1) * 10 ->
        serve (search_questions int args data st) = (SearchBody [] (len (questions st)), 200))).
Proof.
  split; [| split].
  - intros Hdict. by rewrite search_questions_not_dict.
  - intros Hdict Hempty. apply field_empty_iff in Hempty.
    rewrite search_questions_dict by done. by rewrite Hempty.
  - intros v Hv Hne. rewrite (search_questions_term _ _ _ _ _ Hv Hne).
    split; [| split].
    + by intros ->.
    + intros Hmatch. apply nonempty_len in Hmatch.
      destruct (Z.eqb_spec (len (Query.filter_question_ilike st (search_pattern data))) 0);
        [lia | done].
    + intros Hmatch Hp Hbeyond. apply nonempty_len in Hmatch.
      destruct (Z.eqb_spec (len (Query.filter_question_ilike st (search_pattern data))) 0);
        [lia |].
      by rewrite (paginated_beyond _ _ _ Hp Hbeyond).
Qed.

Lemma search_questions_status_witness :
  serve (search_questions Py.int ∅ (JArr [JStr "lake"]) Sample.store)
  = (Failure 500 "An error has occured, please try again", 500)
  /\ serve (search_questions Py.int ∅ (JObj []) Sample.store)
     = (Failure 422 "Unprocessable entity", 422)
  /\ serve (search_questions Py.int ∅ (Sample.search (JStr "dfjdtrertwfresyg346474yg"))
             Sample.store)
     = (Failure 404 "Resource not found", 404)
  /\ serve (search_questions Py.int {["page" := "2"]} (Sample.search (JStr "lake"))
             Sample.store)
     = (SearchBody [] 3, 200).
Proof.
  split; [| split; [| split]].
  - apply (search_questions_status Py.int ∅ (JArr [JStr "lake"]) Sample.store). simpl. tauto.
  - apply (search_questions_status Py.int ∅ (JObj []) Sample.store); [exact I | by left].
  - destruct (search_questions_status Py.int ∅ (Sample.search (JStr "dfjdtrertwfresyg346474yg"))
                Sample.store) as (_ & _ & H).
    apply (H (JStr "dfjdtrertwfresyg346474yg")); [reflexivity | discriminate |].
    vm_compute. reflexivity.
  - destruct (search_questions_status Py.int {["page" := "2"]} (Sample.search (JStr "lake"))
                Sample.store) as (_ & _ & H).
    apply (H (JStr "lake")); [reflexivity | discriminate | | |]; vm_compute; discriminate.
Defined.

(** X7. On the first page a search with one to ten matches returns all
    of them, formatted, in the order of the table: a term that matches
    one question returns that one question. *)
Theorem search_questions_few_matches (int : string -> result Z) (args : gmap string string)
    (data : json) (st : Store) (v : json) :
  data !! "searchTerm" = Some v -> v <> JStr "" ->
  page_number int args = 1 ->
  Query.filter_question_ilike st (search_pattern data) <> [] ->
  len (Query.filter_question_ilike st (search_pattern data)) <= 10 ->
  serve (search_questions int args data st)
  = (SearchBody (Question.format <$> Query.filter_question_ilike st (search_pattern data))
       (len (questions st)), 200).
Proof.
  intros Hv Hne Hp Hmatch Hfew. rewrite (search_questions_term _ _ _ _ _ Hv Hne).
  apply nonempty_len in Hmatch.
  destruct (Z.eqb_spec (len (Query.filter_question_ilike st (search_pattern data))) 0);
    [lia |].
  by rewrite (paginated_first_page_all _ _ _ Hp Hfew).
Qed.

Lemma search_questions_few_matches_witness :
  serve (search_questions Py.int ∅ (Sample.search (JStr "largest lake in Africa")) Sample.store)
  = (SearchBody
       [Question.format (Sample.q 2 "Which lake is the largest lake in Africa?" 3)] 3, 200).
Proof.
  rewrite (search_questions_few_matches Py.int ∅
             (Sample.search (JStr "largest lake in Africa"))
             Sample.store (JStr "largest lake in Africa"));
    [vm_compute; reflexivity | reflexivity | discriminate | reflexivity
    | vm_compute; discriminate | vm_compute; discriminate].
Defined.

(** ** Writes and the table *)

Lemma Question_insert_Ok tc ic fault vq va vd vc st st' :
  Question_insert tc ic fault vq va vd vc st = Ok st' ->
  exists q a d c,
    tc vq = Some q /\ tc va = Some a /\ ic vd = Some d /\ ic vc = Some c /\
    fault = false /\ st' = with_new_question st q a d c.
Proof.
  unfold Question_insert.
  destruct (tc vq) as [q |]; [| done]. destruct (tc va) as [a |]; [| done].
  destruct (ic vd) as [d |]; [| done]. destruct (ic vc) as [c |]; [| done]. simpl.
  destruct fault; [done |]. intros [= <-]. by exists q, a, d, c.
Qed.

Lemma create_question_outcome tc ic fault (data : json) st :
  (~ Py.is_dict data /\ create_question tc ic fault data st = (Raise AttributeError, st))
  \/ (Py.is_dict data /\ create_question tc ic fault data st = (abort 422, st))
  \/ exists q a d c,
       tc (Py.dict_get data "question" (JStr "")) = Some q
       /\ tc (Py.dict_get data "answer" (JStr "")) = Some a
       /\ ic (Py.dict_get data "difficulty" (JStr "")) = Some d
       /\ ic (Py.dict_get data "category" (JStr "")) = Some c
       /\ create_question tc ic fault data st
          = (Ok (Message "Question successfully created!", 201),
             with_new_question st q a d c).
Proof.
  destruct (is_dict_dec data) as [Hdict | Hdict];
    [| left; split; [done | by apply create_question_not_dict]].
  right. rewrite create_question_dict by done. cbv zeta.
  destruct (_ || _); [by left |].
  destruct (Question_insert _ _ _ _ _ _ _ _) as [st' | e] eqn:Hinsert; [| by left].
  apply Question_insert_Ok in Hinsert as (q & a & d & c & Hq & Ha & Hd & Hc & _ & ->).
  right. by exists q, a, d, c.
Qed.

Lemma delete_question_outcome fault id st :
  delete_question fault id st = (abort 422, st)
  \/ delete_question fault id st
     = (Ok (Message "Question successfully deleted", 200), without id st).
Proof.
  destruct (Query.get st id) as [q |] eqn:Hget.
  - rewrite (delete_question_found _ _ _ _ Hget). destruct fault; [by left | by right].
  - left. by apply delete_question_not_found.
Qed.

(** X8. Both writes keep the primary keys: after [POST /questions] and
    after [DELETE /questions/id], whatever the request and whether or
    not the storage faults, the ids of the questions are still unique
    and below the next id to be assigned, and the categories are
    untouched. *)
Theorem writes_keep_primary_keys (text_column : json -> option string)
    (integer_column : json -> option Z) (fault : bool)
    (data : json) (id : Z) (st : Store) :
  wf_store st ->
  (wf_store (snd (create_question text_column integer_column fault data st))
   /\ categories (snd (create_question text_column integer_column fault data st))
      = categories st) /\
  (wf_store (snd (delete_question fault id st))
   /\ categories (snd (delete_question fault id st)) = categories st).
Proof.
  intros Hwf. split.
  - destruct (create_question_outcome text_column integer_column fault data st)
      as [[_ ->] | [[_ ->] | (q & a & d & c & _ & _ & _ & _ & ->)]]; simpl; [done | done |].
    split; [by apply wf_with_new_question | done].
  - destruct (delete_question_outcome fault id st) as [-> | ->]; simpl; [done |].
    split; [by apply wf_without | done].
Qed.

Lemma writes_keep_primary_keys_witness :
  wf_store (snd (create_question Engine.strict_text Engine.strict_integer false
                   Sample.well_formed Sample.store))
  /\ wf_store (snd (delete_question false 2 Sample.store)).
Proof.
  destruct (writes_keep_primary_keys Engine.strict_text Engine.strict_integer false
              Sample.well_formed 2 Sample.store sample_store_wf) as [[H1 _] [H2 _]].
  split; [exact H1 | exact H2].
Defined.

Lemma get_app_fresh (qs : list Question.t) (row : Question.t) (n : Z) (cs : list Category.t)
    (id : Z) :
  Forall (fun q => Question.id q <> Question.id row) qs ->
  Query.get {| questions := qs ++ [row]; categories := cs; next_id := n |} id
  = if Z.eqb (Question.id row) id then Some row
    else Query.get {| questions := qs; categories := cs; next_id := n |} id.
Proof.
  unfold Query.get. simpl. induction 1 as [| r rs Hr Hrs IH]; simpl.
  - by destruct (Z.eqb _ id).
  - destruct (Z.eqb_spec (Question.id r) id) as [Heq | Hne].
    + destruct (Z.eqb_spec (Question.id row) id); [congruence | done].
    + exact IH.
Qed.

Lemma wf_ids_fresh st :
  wf_store st -> Forall (fun q => Question.id q <> next_id st) (questions st).
Proof.
  intros (_ & _ & Hlt). eapply Forall_impl; [exact Hlt |]. simpl. intros; lia.
Qed.

(** X9. A question that [POST /questions] has stored is found under the
    id that the storage gave it, with the values that the storage read
    from the four fields; every other id resolves as before, and the
    next id to be assigned has moved on by one. *)
Theorem create_question_then_get (text_column : json -> option string)
    (integer_column : json -> option Z) (fault : bool)
    (data : json) (st : Store) :
  wf_store st ->
  status (serve (fst (create_question text_column integer_column fault data st))) = 201 ->
  exists q,
    Query.get (snd (create_question text_column integer_column fault data st)) (next_id st)
    = Some q
    /\ Question.id q = next_id st
    /\ text_column (Py.dict_get data "question" (JStr "")) = Some (Question.question q)
    /\ text_column (Py.dict_get data "answer" (JStr "")) = Some (Question.answer q)
    /\ integer_column (Py.dict_get data "difficulty" (JStr "")) = Some (Question.difficulty q)
    /\ integer_column (Py.dict_get data "category" (JStr "")) = Some (Question.category q)
    /\ (forall id, id <> next_id st ->
          Query.get (snd (create_question text_column integer_column fault data st)) id
          = Query.get st id)
    /\ next_id (snd (create_question text_column integer_column fault data st))
       = next_id st + 1.
Proof.
  intros Hwf Hok.
  destruct (create_question_outcome text_column integer_column fault data st)
    as [[_ Hfail] | [[_ Hfail] | (q & a & d & c & Hq & Ha & Hd & Hc & Hcreated)]].
  { rewrite Hfail in Hok. done. }
  { rewrite Hfail in Hok. done. }
  rewrite Hcreated. simpl.
  pose proof (wf_ids_fresh st Hwf) as Hfresh.
  eexists. split; [| split; [| split; [| split; [| split; [| split; [| split]]]]]].
  - unfold with_new_question. rewrite get_app_fresh by done. simpl.
    by rewrite Z.eqb_refl.
  - done.
  - done.
  - done.
  - done.
  - done.
  - intros id Hid. unfold with_new_question. rewrite get_app_fresh by done. simpl.
    destruct (Z.eqb_spec (next_id st) id); [congruence |]. by destruct st.
  - done.
Qed.

Lemma create_question_then_get_witness :
  exists q,
    Query.get (snd (create_question Engine.strict_text Engine.strict_integer false
                      Sample.well_formed Sample.store)) (next_id Sample.store) = Some q
    /\ Question.id q = next_id Sample.store
    /\ Engine.strict_text (Py.dict_get Sample.well_formed "question" (JStr ""))
       = Some (Question.question q)
    /\ Engine.strict_text (Py.dict_get Sample.well_formed "answer" (JStr ""))
       = Some (Question.answer q)
    /\ Engine.strict_integer (Py.dict_get Sample.well_formed "difficulty" (JStr ""))
       = Some (Question.difficulty q)
    /\ Engine.strict_integer (Py.dict_get Sample.well_formed "category" (JStr ""))
       = Some (Question.category q)
    /\ (forall id, id <> next_id Sample.store ->
          Query.get (snd (create_question Engine.strict_text Engine.strict_integer false
                            Sample.well_formed Sample.store)) id
          = Query.get Sample.store id)
    /\ next_id (snd (create_question Engine.strict_text Engine.strict_integer false
                       Sample.well_formed Sample.store))
       = next_id Sample.store + 1.
Proof.
  apply (create_question_then_get Engine.strict_text Engine.strict_integer false
           Sample.well_formed Sample.store sample_store_wf).
  vm_compute. reflexivity.
Defined.

(** ** Decimal numerals in a path *)

Lemma digit_value_char (x : N) :
  (x < 10)%N -> Py.digit_value (pretty_N_char x) = Some (Z.of_N x).
Proof.
  intros Hx.
  assert (x = 0 \/ x = 1 \/ x = 2 \/ x = 3 \/ x = 4 \/ x = 5 \/ x = 6 \/ x = 7
          \/ x = 8 \/ x = 9)%N as Hcases by lia.
  repeat (destruct Hcases as [-> | Hcases]; [reflexivity |]). by subst x.
Qed.

(** The digits of a number, read back. *)
Lemma digits_value_pretty_go (x : N) (s : string) :
  Router.digits_value 0 (list_ascii_of_string (pretty_N_go x s))
  = Router.digits_value (Z.of_N x) (list_ascii_of_string s).
Proof.
  revert s. induction (N.lt_wf_0 x) as [x _ IH]. intros s.
  assert (x = 0 \/ 0 < x)%N as [-> | Hpos] by lia.
  - by rewrite pretty_N_go_0.
  - rewrite pretty_N_go_step by done. rewrite IH by (by apply N.div_lt).
    simpl. rewrite digit_value_char by (by apply N.mod_lt).
    f_equal. rewrite (N.div_mod x 10) at 3 by done. lia.
Qed.

Lemma pretty_N_digits (x : N) :
  list_ascii_of_string (pretty x) <> []
  /\ Router.digits_value 0 (list_ascii_of_string (pretty x)) = Some (Z.of_N x).
Proof.
  unfold pretty, pretty_N. case_decide as Hx.
  - subst x. split; [done | reflexivity].
  - pose proof (digits_value_pretty_go x "") as Hgo. simpl in Hgo.
    split; [| exact Hgo].
    intros Hnil. rewrite Hnil in Hgo. simpl in Hgo. injection Hgo as Hgo. lia.
Qed.

Lemma int_converter_pretty_N (x : N) : Router.int_converter (pretty x) = Some (Z.of_N x).
Proof.
  destruct (pretty_N_digits x) as (Hne & Hvalue). unfold Router.int_converter.
  destruct (list_ascii_of_string (pretty x)); [done | exact Hvalue].
Qed.

Lemma int_converter_pretty (n : Z) : 0 <= n -> Router.int_converter (pretty n) = Some n.
Proof.
  intros Hn. destruct n as [| x | x]; [done | | lia].
  change (pretty (Z.pos x)) with (pretty (N.pos x)).
  by rewrite int_converter_pretty_N.
Qed.

(** ** Deleting what was created *)

Lemma get_member st (row : Question.t) :
  row ∈ questions st -> is_Some (Query.get st (Question.id row)).
Proof.
  intros Hrow. unfold Query.get.
  destruct (find _ _) as [r |] eqn:Hfind; [by eexists |].
  apply list_elem_of_In in Hrow.
  pose proof (find_none _ _ Hfind row Hrow) as Hfalse. simpl in Hfalse.
  by rewrite Z.eqb_refl in Hfalse.
Qed.

Lemma without_new_question st q a d c :
  wf_store st ->
  questions (without (next_id st) (with_new_question st q a d c)) = questions st.
Proof.
  intros Hwf. pose proof (wf_ids_fresh st Hwf) as Hfresh.
  unfold without, with_new_question. simpl. rewrite List.filter_app. simpl.
  rewrite Z.eqb_refl. simpl. rewrite app_nil_r.
  induction Hfresh as [| r rs Hr Hrs IH]; [done |]. simpl.
  destruct (Z.eqb_spec (Question.id r) (next_id st)); [done |]. simpl. by rewrite IH.
Qed.

Lemma without_one (qs : list Question.t) (id : Z) :
  NoDup (Question.id <$> qs) -> id ∈ Question.id <$> qs ->
  len (List.filter (fun r => negb (Z.eqb (Question.id r) id)) qs) = len qs - 1.
Proof.
  unfold len. induction qs as [| r rs IH]; intros Hnodup Hin.
  - by apply elem_of_nil in Hin.
  - simpl in Hnodup. apply NoDup_cons in Hnodup as [Hfresh Hnodup]. simpl.
    destruct (Z.eqb_spec (Question.id r) id) as [Heq | Hne]; simpl.
    + subst id. clear IH Hin.
      assert (Hsame : List.filter (fun r0 => negb (Z.eqb (Question.id r0) (Question.id r))) rs
                      = rs).
      { clear Hnodup. induction rs as [| r' rs IH]; [done |]. simpl.
        destruct (Z.eqb_spec (Question.id r') (Question.id r)) as [Heq | Hne]; simpl.
        - exfalso. apply Hfresh. rewrite <- Heq. apply list_elem_of_here.
        - f_equal. apply IH. intros Hin. apply Hfresh. by apply list_elem_of_further. }
      rewrite Hsame. lia.
    + simpl in Hin. apply elem_of_cons in Hin as [-> | Hin]; [done |].
      specialize (IH Hnodup Hin).
      assert (0 < length rs)%nat by (destruct rs; [by apply elem_of_nil in Hin | simpl; lia]).
      lia.
Qed.

Lemma without_sublist (id : Z) (st : Store) :
  questions (without id st) `sublist_of` questions st.
Proof.
  unfold without. simpl. induction (questions st) as [| r rs IH]; [done |]. simpl.
  destruct (negb _); [apply sublist_skip | apply sublist_cons]; exact IH.
Qed.

(** X13. A successful [DELETE /questions/id] on a table with unique ids
    removes exactly one question: the table is one shorter, what is left
    keeps its order, and the next [GET /questions] that finds a page
    reports a total that is one less. *)
Theorem delete_question_removes_one (int : string -> result Z)
    (args : gmap string string) (id : Z) (st : Store) :
  wf_store st -> is_Some (Query.get st id) ->
  len (questions (snd (delete_question false id st))) = len (questions st) - 1
  /\ questions (snd (delete_question false id st)) `sublist_of` questions st
  /\ (status (serve (get_questions int args (snd (delete_question false id st)))) = 200 ->
      exists dict page,
        serve (get_questions int args (snd (delete_question false id st)))
        = (QuestionsBody (len (questions st) - 1) dict page, 200)).
Proof.
  intros Hwf [q Hq]. rewrite (delete_question_found _ _ _ _ Hq). cbn [snd].
  assert (Hlen : len (questions (without id st)) = len (questions st) - 1).
  { unfold without. simpl. apply without_one; [apply Hwf |].
    apply find_some in Hq as [Hin Hid]. apply list_elem_of_fmap.
    exists q. split; [lia | by apply list_elem_of_In]. }
  split; [exact Hlen |]. split.
  - apply without_sublist.
  - intros Hok.
    destruct (decide (__get_paginated_questions int args (Query.questions_by_id (without id st))
                        QUESTIONS_PER_PAGE = [])) as [Hnil | Hne].
    + rewrite (get_questions_page_empty _ _ _ Hnil) in Hok. done.
    + rewrite (get_questions_page_found _ _ _ Hne). cbn [serve]. rewrite Hlen.
      by eexists _, _.
Qed.

Lemma delete_question_removes_one_witness :
  len (questions (snd (delete_question false 2 Sample.store))) = len (questions Sample.store) - 1.
Proof.
  apply (delete_question_removes_one Py.int ∅ 2 Sample.store sample_store_wf).
  vm_compute. eauto.
Defined.

Lemma create_test_question_Ok tc ic fault st id st1 :
  __create_test_question tc ic fault st = Ok (id, st1) ->
  id = next_id st /\ exists q a d c, st1 = with_new_question st q a d c.
Proof.
  unfold __create_test_question.
  destruct (Question_insert _ _ _ _ _ _ _ _) as [st' | e] eqn:Hinsert; [| done].
  simpl. intros [= <- <-].
  apply Question_insert_Ok in Hinsert as (q & a & d & c & _ & _ & _ & _ & _ & ->).
  split; [done |]. by exists q, a, d, c.
Qed.

(** X14. The scenario of [test_delete_question] and of
    [test_delete_question_duplicate_id]: after [__create_test_question]
    has stored its question and returned an id that is not negative,
    [DELETE /questions/<id>] with the id written in decimal answers 200
    with the message "Question successfully deleted"; the same request
    again answers 422 and changes nothing; and on a table with unique
    ids the questions are then those from before the test. *)
Theorem test_delete_question_passes (text_column : json -> option string)
    (integer_column : json -> option Z) (st st1 : Store) (id : Z) :
  __create_test_question text_column integer_column false st = Ok (id, st1) ->
  0 <= next_id st ->
  serve (fst (Router.delete_question_at false (pretty id) st1))
  = (Message "Question successfully deleted", 200)
  /\ (forall fault : bool,
        serve (fst (Router.delete_question_at fault (pretty id)
                      (snd (Router.delete_question_at false (pretty id) st1))))
        = (Failure 422 "Unprocessable entity", 422)
        /\ snd (Router.delete_question_at fault (pretty id)
                  (snd (Router.delete_question_at false (pretty id) st1)))
           = snd (Router.delete_question_at false (pretty id) st1))
  /\ (wf_store st ->
      questions (snd (Router.delete_question_at false (pretty id) st1)) = questions st).
Proof.
  intros Hcreate Hid.
  apply create_test_question_Ok in Hcreate as (-> & q & a & d & c & ->).
  assert (Hroute : forall fault st',
            Router.delete_question_at fault (pretty (next_id st)) st'
            = delete_question fault (next_id st) st').
  { intros fault st'. unfold Router.delete_question_at.
    by rewrite (int_converter_pretty _ Hid). }
  assert (Hfound : is_Some (Query.get (with_new_question st q a d c) (next_id st))).
  { apply (get_member (with_new_question st q a d c)
             {| Question.id := next_id st; Question.question := q; Question.answer := a;
                Question.difficulty := d; Question.category := c |}).
    unfold with_new_question. simpl. apply elem_of_app. right. apply list_elem_of_here. }
  destruct Hfound as [row Hrow].
  rewrite !Hroute, (delete_question_found _ _ _ _ Hrow). simpl.
  split; [done |]. split.
  - intros fault. rewrite Hroute.
    by rewrite (delete_question_not_found _ _ _ (get_without _ (next_id st))).
  - intros Hwf. by apply without_new_question.
Qed.

Lemma test_delete_question_passes_witness :
  serve (fst (Router.delete_question_at false (pretty 6)
                (with_new_question Sample.store
                   "This is a test question that should deleted"
                   "This is a test question that should deleted" 1 1)))
  = (Message "Question successfully deleted", 200).
Proof.
  apply (test_delete_question_passes Engine.strict_text Coercing.integer Sample.store
           (with_new_question Sample.store
              "This is a test question that should deleted"
              "This is a test question that should deleted" 1 1) 6);
    [vm_compute; reflexivity | vm_compute; discriminate].
Defined.

(** ** The quiz: when it answers, and with what *)

Section QuizDraws.

Context (rng : nat -> nat) (pool : list Question.t) (prev : json).
Context (draw : nat -> Question.t) (n : nat).
Hypothesis draws : forall j, (j <= n)%nat -> get_random_question rng pool j = Ok (draw j).
Hypothesis excluded :
  forall j, (j < n)%nat -> Py.contains_int prev (Question.id (draw j)) = Ok true.
Hypothesis eligible : Py.contains_int prev (Question.id (draw n)) = Ok false.

Lemma quiz_loop_first_eligible (d i fuel : nat) :
  (i + d = n)%nat ->
  quiz_loop rng pool prev fuel (S i) (draw i)
  = if decide (d < fuel)%nat then Some (Ok (draw n)) else None.
Proof.
  revert i fuel. induction d as [| d IH]; intros i fuel Hi.
  - replace i with n by lia. destruct fuel as [| fuel]; [done |].
    cbn [quiz_loop]. rewrite eligible. case_decide; [done | lia].
  - destruct fuel as [| fuel]; [done |]. cbn [quiz_loop].
    rewrite excluded by lia. rewrite draws by lia.
    rewrite (IH (S i) fuel) by lia. repeat case_decide; (done || lia).
Qed.

End QuizDraws.

(** X15. The quiz answers with the first drawn candidate whose id is not
    contained in [previous_questions]: when the draws before the [n]th
    are all excluded and the [n]th is not, the handler returns that
    candidate with 200 after [n] rounds of the loop have redrawn, and it
    is still in the loop before. *)
Theorem quiz_returns_first_eligible (integer_column : json -> option Z)
    (rng : nat -> nat) (fuel : nat) (data : json) (st : Store)
    (prev qc : json) (pool : list Question.t) (draw : nat -> Question.t) (n : nat) :
  data !! "previous_questions" = Some prev -> prev <> JNull ->
  data !! "quiz_category" = Some qc -> qc <> JNull ->
  quiz_pool integer_column qc st = Ok pool ->
  (forall j, (j <= n)%nat -> get_random_question rng pool j = Ok (draw j)) ->
  (forall j, (j < n)%nat -> Py.contains_int prev (Question.id (draw j)) = Ok true) ->
  Py.contains_int prev (Question.id (draw n)) = Ok false ->
  quiz_get_next_question integer_column rng fuel data st
  = if decide (n < fuel)%nat
    then Some (Ok (QuizBody (Question.format (draw n)), 200))
    else None.
Proof.
  intros Hprev Hprev' Hqc Hqc' Hpool Hdraws Hexcluded Heligible.
  rewrite (quiz_fields_present _ _ _ _ _ _ _ Hprev Hprev' Hqc Hqc'), Hpool.
  rewrite (Hdraws 0%nat) by lia.
  rewrite (quiz_loop_first_eligible rng pool prev draw n Hdraws Hexcluded Heligible n 0 fuel)
    by lia.
  by case_decide.
Qed.

Lemma quiz_returns_first_eligible_witness :
  quiz_get_next_question Engine.strict_integer (fun k => (4 - 3 * k)%nat) 2
    (Sample.quiz [5] 1) Sample.many_store
  = Some (Ok (QuizBody (Question.format (Sample.q 2 "Which dung beetle?" 1)), 200)).
Proof.
  apply (quiz_returns_first_eligible Engine.strict_integer (fun k => (4 - 3 * k)%nat) 2
           (Sample.quiz [5] 1) Sample.many_store
           (JArr [JNum 5]) (JObj [("type", JStr "click"); ("id", JNum 1)])
           Sample.many
           (fun j => match j with
                     | O => Sample.q 5 "Which dung beetle?" 1
                     | _ => Sample.q 2 "Which dung beetle?" 1
                     end) 1);
    try reflexivity; try discriminate.
  - intros [| [| j]] Hj; [reflexivity | reflexivity | lia].
  - intros [| j] Hj; [reflexivity | lia].
Defined.

Lemma getitem_unhandled v key e : Py.getitem v key = Raise e -> unhandled e.
Proof.
  unfold Py.getitem. destruct v; try (intros [= <-]; exact I).
  destruct (Py.assoc key fields); [done | intros [= <-]; exact I].
Qed.

Lemma quiz_pool_unhandled ic qc st e : quiz_pool ic qc st = Raise e -> unhandled e.
Proof.
  unfold quiz_pool. destruct (Py.getitem qc "id") as [cid | e'] eqn:Hid; simpl.
  - destruct (Py.eq_int cid 0); [done |]. unfold filter_by_category_value.
    destruct cid; try done; (destruct (ic _); simpl; [done | intros [= <-]; exact I]).
  - intros [= <-]. by apply getitem_unhandled in Hid.
Qed.

Lemma get_random_question_unhandled rng pool k e :
  get_random_question rng pool k = Raise e -> unhandled e.
Proof.
  unfold get_random_question, Py.randint. destruct (Z.ltb _ 0); simpl.
  - intros [= <-]. exact I.
  - unfold Py.index. destruct (pool !! _); [done | intros [= <-]; exact I].
Qed.

Lemma contains_int_unhandled v k e : Py.contains_int v k = Raise e -> unhandled e.
Proof. destruct v; simpl; try done; intros [= <-]; exact I. Qed.

Lemma quiz_loop_unhandled rng pool prev fuel k next e :
  quiz_loop rng pool prev fuel k next = Some (Raise e) -> unhandled e.
Proof.
  revert k next. induction fuel as [| fuel IH]; intros k next; [done |]. simpl.
  destruct (Py.contains_int prev (Question.id next)) as [[] | e'] eqn:Hin.
  - destruct (get_random_question rng pool k) as [q | e'] eqn:Hdraw; [apply IH |].
    intros [= <-]. by apply get_random_question_unhandled in Hdraw.
  - done.
  - intros [= <-]. by apply contains_int_unhandled in Hin.
Qed.

Lemma serve_unhandled (e : exn) :
  unhandled e ->
  serve (Raise e) = (Failure 500 "An error has occured, please try again", 500).
Proof. by destruct e. Qed.

Lemma quiz_outcome ic rng fuel (data : json) st r :
  quiz_get_next_question ic rng fuel data st = Some r ->
  (~ Py.is_dict data /\ r = Raise AttributeError)
  \/ (Py.is_dict data
      /\ r = abort 400
      /\ ((data !! "quiz_category" = None \/ data !! "quiz_category" = Some JNull)
          \/ (data !! "previous_questions" = None
              \/ data !! "previous_questions" = Some JNull)))
  \/ ((exists prev qc, data !! "previous_questions" = Some prev /\ prev <> JNull
                       /\ data !! "quiz_category" = Some qc /\ qc <> JNull)
      /\ ((exists q, r = Ok (QuizBody (Question.format q), 200))
          \/ exists e, r = Raise e /\ unhandled e)).
Proof.
  intros Hquiz.
  destruct (is_dict_dec data) as [Hdict | Hdict].
  2: { left. rewrite quiz_not_dict in Hquiz by done. injection Hquiz as <-. by split. }
  right.
  destruct (is_none (Py.dict_get data "quiz_category" JNull)) eqn:Hqc.
  { apply dict_get_none in Hqc. left.
    rewrite quiz_field_missing in Hquiz by (done || by left). injection Hquiz as <-.
    split; [done |]. by split; [| left]. }
  destruct (is_none (Py.dict_get data "previous_questions" JNull)) eqn:Hprev.
  { apply dict_get_none in Hprev. left.
    rewrite quiz_field_missing in Hquiz by (done || by right). injection Hquiz as <-.
    split; [done |]. by split; [| right]. }
  apply dict_get_present in Hqc as (qc & Hqc & Hqc').
  apply dict_get_present in Hprev as (prev & Hprev & Hprev').
  right. split; [by exists prev, qc |].
  rewrite (quiz_fields_present _ _ _ _ _ _ _ Hprev Hprev' Hqc Hqc') in Hquiz.
  destruct (quiz_pool ic qc st) as [pool | e] eqn:Hpool.
  2: { injection Hquiz as <-. right. exists e. split; [done |].
       by apply quiz_pool_unhandled in Hpool. }
  destruct (get_random_question rng pool 0) as [first | e] eqn:Hfirst.
  2: { injection Hquiz as <-. right. exists e. split; [done |].
       by apply get_random_question_unhandled in Hfirst. }
  destruct (quiz_loop rng pool prev fuel 1 first) as [[q | e] |] eqn:Hloop; [| | done].
  - injection Hquiz as <-. left. by exists q.
  - injection Hquiz as <-. right. exists e. split; [done |].
    by apply quiz_loop_unhandled in Hloop.
Qed.

(** X16. Whenever [POST /quizzes] answers, the status is 200, 400 or
    500. It is 400, with the body of the handler of 400, exactly when
    the body of the request is a JSON object in which
    [previous_questions] or [quiz_category] is missing or null. A body
    that is not a JSON object is answered with the 500 of the handler of
    500, as [data.get] raises on it, and so is a failure with both
    fields present. *)
Theorem quiz_status (integer_column : json -> option Z) (rng : nat -> nat)
    (fuel : nat) (data : json) (st : Store) (r : result response) :
  quiz_get_next_question integer_column rng fuel data st = Some r ->
  (succeeds (serve r) 200
   \/ serve r = (Failure 400 "Bad request error", 400)
   \/ serve r = (Failure 500 "An error has occured, please try again", 500)) /\
  (status (serve r) = 400
   <-> Py.is_dict data
       /\ ((data !! "quiz_category" = None \/ data !! "quiz_category" = Some JNull)
           \/ (data !! "previous_questions" = None
               \/ data !! "previous_questions" = Some JNull))) /\
  (~ Py.is_dict data ->
   r = Raise AttributeError
   /\ serve r = (Failure 500 "An error has occured, please try again", 500)).
Proof.
  intros Hquiz.
  destruct (quiz_outcome _ _ _ _ _ _ Hquiz)
    as [[Hdict ->] | [(Hdict & -> & Hmissing)
       | [(prev & qc & Hprev & Hprev' & Hqc & Hqc') [[q ->] | (e & -> & He)]]]].
  - split; [by right; right |]. split; [| done].
    simpl. split; [done | tauto].
  - split; [by right; left |]. split; [done | tauto].
  - split; [left; split; [done | intros error message; discriminate] |].
    split; [| intros Hdict; destruct Hdict; by eapply lookup_is_dict].
    simpl. split; [done |].
    intros [_ [[H | H] | [H | H]]]; congruence.
  - rewrite (serve_unhandled e He). split; [by right; right |].
    split; [| intros Hdict; destruct Hdict; by eapply lookup_is_dict].
    simpl. split; [done |].
    intros [_ [[H | H] | [H | H]]]; congruence.
Qed.

Lemma quiz_status_witness :
  status (serve (abort 400)) = 400
  /\ serve <$> quiz_get_next_question Engine.strict_integer (fun k => k) 0
                 (JArr [JNum 1]) Sample.store
     = Some (Failure 500 "An error has occured, please try again", 500).
Proof.
  split.
  - destruct (quiz_status Engine.strict_integer (fun k => k) 0 (JObj []) Sample.store
                (abort 400)) as (_ & H & _); [vm_compute; reflexivity |].
    apply H. split; [exact I |]. left. by left.
  - destruct (quiz_status Engine.strict_integer (fun k => k) 0 (JArr [JNum 1]) Sample.store
                (Raise AttributeError)) as (_ & _ & H); [vm_compute; reflexivity |].
    destruct H as [_ H]; [simpl; tauto |]. simpl. by rewrite <- H.
Defined.

(** X17. With both fields present, a request of the wrong shape is
    answered with the 500 of the handler of 500: a [quiz_category] that
    is not an object or has no [id]; an [id] other than 0 and null that
    the storage does not read as an integer; and, when the pool has a
    question, a [previous_questions] that is a number, a string or a
    boolean. *)
Theorem quiz_malformed_is_500 (integer_column : json -> option Z) (rng : nat -> nat)
    (fuel : nat) (data : json) (st : Store) (prev qc : json) :
  data !! "previous_questions" = Some prev -> prev <> JNull ->
  data !! "quiz_category" = Some qc -> qc <> JNull ->
  ((forall fields, qc <> JObj fields) \/ (exists fields, qc = JObj fields
                                           /\ Py.assoc "id" fields = None) ->
     serve <$> quiz_get_next_question integer_column rng fuel data st
     = Some (Failure 500 "An error has occured, please try again", 500)) /\
  (forall cid,
     Py.getitem qc "id" = Ok cid -> Py.eq_int cid 0 = false -> cid <> JNull ->
     integer_column cid = None ->
     serve <$> quiz_get_next_question integer_column rng fuel data st
     = Some (Failure 500 "An error has occured, please try again", 500)) /\
  (forall pool,
     quiz_pool integer_column qc st = Ok pool -> pool <> [] -> scalar prev ->
     (0 < fuel)%nat ->
     serve <$> quiz_get_next_question integer_column rng fuel data st
     = Some (Failure 500 "An error has occured, please try again", 500)).
Proof.
  intros Hprev Hprev' Hqc Hqc'.
  rewrite (quiz_fields_present _ _ _ _ _ _ _ Hprev Hprev' Hqc Hqc').
  split; [| split].
  - intros Hshape.
    assert (Hid : exists e, Py.getitem qc "id" = Raise e /\ unhandled e).
    { destruct Hshape as [Hnot | (fields & -> & Hnone)].
      - destruct qc; try (by exists TypeError); by destruct (Hnot fields).
      - simpl. rewrite Hnone. by exists KeyError. }
    destruct Hid as (e & Hid & He). unfold quiz_pool. rewrite Hid. cbn -[serve].
    by rewrite (serve_unhandled e He).
  - intros cid Hid Hnz Hnull Hrejected. unfold quiz_pool. rewrite Hid. simpl.
    rewrite Hnz. unfold filter_by_category_value.
    destruct cid; try done; by rewrite Hrejected.
  - intros pool Hpool Hne Hscalar Hfuel. rewrite Hpool.
    destruct (get_random_question_elem rng pool 0 Hne) as (first & -> & _).
    destruct fuel as [| fuel]; [lia |]. simpl.
    by destruct prev.
Qed.

Lemma quiz_malformed_is_500_witness :
  serve <$> quiz_get_next_question Engine.strict_integer (fun k => k) 1
              (JObj [("previous_questions", JArr []); ("quiz_category", JStr "Science")])
              Sample.store
  = Some (Failure 500 "An error has occured, please try again", 500).
Proof.
  apply (quiz_malformed_is_500 Engine.strict_integer (fun k => k) 1
           (JObj [("previous_questions", JArr []); ("quiz_category", JStr "Science")])
           Sample.store (JArr []) (JStr "Science")); try reflexivity; try discriminate.
  left. intros fields. discriminate.
Defined.

(** ** The status of every answer *)

Lemma category_one_or_none_unhandled st id e :
  Query.category_one_or_none st id = Raise e -> unhandled e.
Proof.
  unfold Query.category_one_or_none.
  destruct (List.filter _ _) as [| c [| c' rest]]; try done. intros [= <-]. exact I.
Qed.

Lemma search_questions_outcome int args (data : json) st :
  (~ Py.is_dict data /\ search_questions int args data st = Raise AttributeError)
  \/ (Py.is_dict data
      /\ (search_questions int args data st = abort 422
          \/ search_questions int args data st = abort 404
          \/ exists page total, search_questions int args data st
                                = Ok (SearchBody page total, 200))).
Proof.
  destruct (is_dict_dec data) as [Hdict | Hdict];
    [| left; split; [done | by apply search_questions_not_dict]].
  right. split; [done |]. rewrite search_questions_dict by done.
  destruct (Py.eq_empty_str _); [by left |].
  destruct (Z.eqb _ 0); [by right; left |]. right; right. by eexists _, _.
Qed.

(** X18. The statuses of the endpoints that handle questions, while the
    storage answers its reads. [GET /questions] answers 200 or 404;
    [DELETE /questions/id] 200 or 422; [POST /questions] 201, 422 or
    500; [POST /questions/search] 200, 404, 422 or 500;
    [GET /categories/id/questions] 200 or 422 when the ids of the
    categories are unique; [POST /quizzes], when it answers, 200, 400 or
    500. The two handlers that read a body with [data.get] outside a
    [try] answer 500 exactly when the body is not a JSON object. Every
    answer that is not a success is the fixed body of the error handler
    of its status, whose [error] field is that status. *)
Theorem endpoint_statuses (text_column : json -> option string)
    (integer_column : json -> option Z) (fault : bool) (int : string -> result Z)
    (args : gmap string string) (data : json) (id : Z) (st : Store)
    (rng : nat -> nat) (fuel : nat) :
  (succeeds (serve (get_questions int args st)) 200
   \/ serve (get_questions int args st) = (Failure 404 "Resource not found", 404)) /\
  (succeeds (serve (fst (delete_question fault id st))) 200
   \/ serve (fst (delete_question fault id st))
      = (Failure 422 "Unprocessable entity", 422)) /\
  ((succeeds (serve (fst (create_question text_column integer_column fault data st))) 201
    \/ serve (fst (create_question text_column integer_column fault data st))
       = (Failure 422 "Unprocessable entity", 422)
    \/ serve (fst (create_question text_column integer_column fault data st))
       = (Failure 500 "An error has occured, please try again", 500))
   /\ (status (serve (fst (create_question text_column integer_column fault data st))) = 500
       <-> ~ Py.is_dict data)) /\
  ((succeeds (serve (search_questions int args data st)) 200
    \/ serve (search_questions int args data st) = (Failure 404 "Resource not found", 404)
    \/ serve (search_questions int args data st) = (Failure 422 "Unprocessable entity", 422)
    \/ serve (search_questions int args data st)
       = (Failure 500 "An error has occured, please try again", 500))
   /\ (status (serve (search_questions int args data st)) = 500 <-> ~ Py.is_dict data)) /\
  (wf_store st ->
   succeeds (serve (get_questions_by_category int args id st)) 200
   \/ serve (get_questions_by_category int args id st)
      = (Failure 422 "Unprocessable entity", 422)) /\
  (forall r, quiz_get_next_question integer_column rng fuel data st = Some r ->
     succeeds (serve r) 200
     \/ serve r = (Failure 400 "Bad request error", 400)
     \/ serve r = (Failure 500 "An error has occured, please try again", 500)).
Proof.
  assert (Hsuccess : forall (b : body) (code : Z),
            (forall error message, b <> Failure error message) -> succeeds (b, code) code).
  { intros b code Hb. by split. }
  split; [| split; [| split; [| split; [| split]]]].
  - unfold get_questions. destruct (Z.eqb _ 0); [by right |]. left. by apply Hsuccess.
  - destruct (delete_question_outcome fault id st) as [-> | ->]; [by right |].
    left. by apply Hsuccess.
  - destruct (create_question_outcome text_column integer_column fault data st)
      as [[Hdict ->] | [[Hdict ->] | (q & a & d & c & _ & _ & _ & _ & Hcreated)]].
    + split; [by right; right |]. done.
    + split; [by right; left |]. simpl. split; [done | tauto].
    + assert (Hdict : Py.is_dict data).
      { destruct (is_dict_dec data) as [Hd | Hd]; [done |].
        rewrite (create_question_not_dict _ _ _ _ _ Hd) in Hcreated. discriminate. }
      rewrite Hcreated. split; [left; by apply Hsuccess |].
      simpl. split; [done | tauto].
  - destruct (search_questions_outcome int args data st)
      as [[Hdict ->] | [Hdict [-> | [-> | (page & total & ->)]]]].
    + split; [by right; right; right |]. done.
    + split; [by right; right; left |]. simpl. split; [done | tauto].
    + split; [by right; left |]. simpl. split; [done | tauto].
    + split; [left; by apply Hsuccess |]. simpl. split; [done | tauto].
  - intros (_ & Hnodup & _). unfold get_questions_by_category, Query.category_one_or_none.
    destruct (decide (id ∈ Category.id <$> categories st)) as [Hin | Hout].
    + apply list_elem_of_fmap in Hin as (c & -> & Hc).
      rewrite (filter_category_unique _ _ Hnodup Hc). left. by apply Hsuccess.
    + rewrite filter_category_absent; [by right |].
      intros c Hc Hid. apply Hout. apply list_elem_of_fmap. by exists c.
  - intros r Hquiz.
    destruct (quiz_outcome _ _ _ _ _ _ Hquiz)
      as [[_ ->] | [(_ & -> & _) | [_ [[q ->] | (e & -> & He)]]]].
    + by right; right.
    + by right; left.
    + left. by apply Hsuccess.
    + right; right. by apply serve_unhandled.
Qed.

Lemma endpoint_statuses_witness :
  succeeds (serve (get_questions_by_category Py.int ∅ 6 Sample.store)) 200
  \/ serve (get_questions_by_category Py.int ∅ 6 Sample.store)
     = (Failure 422 "Unprocessable entity", 422).
Proof.
  apply (endpoint_statuses Engine.strict_text Engine.strict_integer false Py.int ∅
           (JObj []) 6 Sample.store (fun k => k) 0).
  exact sample_store_wf.
Defined.
